(** * SMBMounter: a shallow embedding of [SMBMounter.py]

    The program is a small Tk front end around three external tools
    ([smbclient -L], [gio mount], [gio mount -u]) and a directory of
    symbolic links.  The embedding keeps the structure of the Python class:

    - Python [str] values are [string]s (characters are code points below
      256); [str.split], [str.strip] and [in] are written out below;
    - [pathlib.Path] values are kept in the normal form pathlib itself
      computes (components separated by one slash);
    - the file system is a finite map from path strings to nodes, with
      [Path.exists] following symbolic links the way [stat] does;
    - the object [self], the heap of the inner [{"mounted": b}] dictionaries,
      the file system and the message boxes shown so far form one state
      record, threaded through a state-and-exception monad;
    - external commands are a parameter [os_run] of the development: a
      command may raise or complete, and may change the file system;
    - of the Tk widgets only what the methods read back is kept: the text
      of the server entry, the check-box variables, and whether
      [self.main_frame] has been set; message boxes are recorded in the
      order they are shown, and showing one does not raise. *)

From Stdlib Require Import ZArith Ascii String DecimalString DecimalPos.
From stdpp Require Import gmap strings list fin_maps.

Local Open Scope Z_scope.

(** ** Python strings *)

Module PyStr.

(** [str.isspace] on the code points below 256: TAB..CR, FS..US, SPACE,
    NEL (0x85) and NBSP (0xA0). *)
Definition isspace (a : ascii) : bool :=
  let n := N_of_ascii a in
  (((9 <=? n) && (n <=? 13)) || ((28 <=? n) && (n <=? 32))
   || (n =? 133) || (n =? 160))%N.

(** [s.startswith(p)]. *)
Fixpoint startswith (p s : string) : bool :=
  match p, s with
  | EmptyString, _ => true
  | String a p', String b s' => if decide (a = b) then startswith p' s' else false
  | String _ _, EmptyString => false
  end.

(** [p in s]: [p] occurs in [s] as a substring. *)
Fixpoint contains (p s : string) : bool :=
  startswith p s ||
  match s with
  | EmptyString => false
  | String _ s' => contains p s'
  end.

(** [s.endswith(p)]. *)
Definition endswith (p s : string) : bool :=
  startswith (String.rev p) (String.rev s).

(** [s.split(c)] for a one-character separator: never empty, keeps empty
    fields. *)
Fixpoint split_on (c : ascii) (s : string) : list string :=
  match s with
  | EmptyString => [EmptyString]
  | String a s' =>
      if decide (a = c) then EmptyString :: split_on c s'
      else match split_on c s' with
           | h :: t => String a h :: t
           | [] => [String a EmptyString]
           end
  end.

(** [sep.join(l)]. *)
Fixpoint join (sep : string) (l : list string) : string :=
  match l with
  | [] => EmptyString
  | [x] => x
  | x :: l' => x +:+ sep +:+ join sep l'
  end.

(** [s.split()]: the maximal runs of non-whitespace characters. *)
Fixpoint split (s : string) : list string :=
  match s with
  | EmptyString => []
  | String a s' =>
      if isspace a then split s'
      else match s' with
           | EmptyString => [String a EmptyString]
           | String b _ =>
               if isspace b then String a EmptyString :: split s'
               else match split s' with
                    | h :: t => String a h :: t
                    | [] => [String a EmptyString]
                    end
           end
  end.

(** [s.lstrip()], [s.rstrip()] and [s.strip()]. *)
Fixpoint lstrip (s : string) : string :=
  match s with
  | EmptyString => EmptyString
  | String a s' => if isspace a then lstrip s' else s
  end.

Definition rstrip (s : string) : string :=
  String.rev (lstrip (String.rev s)).

Definition strip (s : string) : string := rstrip (lstrip s).

(** No character of [s] is white space. *)
Fixpoint blank_free (s : string) : bool :=
  match s with
  | EmptyString => true
  | String a s' => negb (isspace a) && blank_free s'
  end.

(** [str(n)] for a non-negative integer. *)
Definition of_N (n : N) : string :=
  NilEmpty.string_of_uint (N.to_uint n).

(** [str(z)] for an integer. *)
Definition of_Z (z : Z) : string :=
  match z with
  | Z0 => "0"
  | Zpos p => of_N (Npos p)
  | Zneg p => "-" +:+ of_N (Npos p)
  end.

End PyStr.

(** ** pathlib paths (POSIX flavour) *)

Module PyPath.

(** A parsed path: the root ([""], ["/"] or ["//"]) and the components. *)
Record path := mk_path { root : string; parts : list string }.

(** The root pathlib splits off: exactly two leading slashes are kept,
    any other number of leading slashes is one. *)
Definition root_of (s : string) : string :=
  if PyStr.startswith "//" s && negb (PyStr.startswith "///" s) then "//"
  else if PyStr.startswith "/" s then "/"
  else "".

Definition keep_part (c : string) : bool :=
  negb (bool_decide (c = "")) && negb (bool_decide (c = ".")).

(** The components: empty ones and ["."] are dropped. *)
Definition parts_of (s : string) : list string :=
  List.filter keep_part (PyStr.split_on "/" s).

(** [Path(s)]. *)
Definition Path (s : string) : path :=
  {| root := root_of s; parts := parts_of s |}.

(** [p / name]: an absolute [name] replaces [p]. *)
Definition truediv (p : path) (name : string) : path :=
  let q := Path name in
  if bool_decide (root q = "") then {| root := root p; parts := parts p ++ parts q |}
  else q.

(** [str(p)], the string handed to the operating system. *)
Definition str (p : path) : string :=
  match root p, parts p with
  | EmptyString, [] => "."
  | r, l => r +:+ PyStr.join "/" l
  end.

End PyPath.

(** ** The file system

    Every path string names its node directly: intermediate directories are
    taken to exist and not to be symbolic links, and permissions are not
    modelled.  A symbolic link stores the string given to [symlink]. *)

Inductive node :=
  | Symlink (target : string)
  | Directory
  | File.

Global Instance node_eq_dec : EqDecision node.
Proof. solve_decision. Defined.

Module FS.

(** What [stat] finds at [p], following at most [fuel] symbolic links. *)
Fixpoint stat_fuel (fuel : nat) (fs : gmap string node) (p : string) : option node :=
  match fs !! p with
  | None => None
  | Some (Symlink t) =>
      match fuel with
      | O => None
      | S n => stat_fuel n fs t
      end
  | Some n => Some n
  end.

(** The kernel follows at most 40 links before it gives up with ELOOP. *)
Definition MAXSYMLINKS : nat := 40.

Definition stat (fs : gmap string node) (p : string) : option node :=
  stat_fuel MAXSYMLINKS fs p.

(** [Path.exists()]: [stat] succeeds (ENOENT and ELOOP both give False). *)
Definition exists_ (fs : gmap string node) (p : string) : bool :=
  bool_decide (is_Some (stat fs p)).

(** [Path.is_dir()]. *)
Definition is_dir (fs : gmap string node) (p : string) : bool :=
  bool_decide (stat fs p = Some Directory).

(** A symbolic link that does not resolve. *)
Definition dangling (fs : gmap string node) (p : string) : Prop :=
  (∃ t, fs !! p = Some (Symlink t)) ∧ exists_ fs p = false.

End FS.

(** ** Exceptions, processes, message boxes *)

Inductive exn :=
  | FileExistsError (p : string)
  | FileNotFoundError (p : string)
  | IsADirectoryError (p : string)
  | CalledProcessError (returncode : Z) (cmd : list string)
  | AttributeError (name : string)
  | IndexError
  | OSError (msg : string).

(** What [subprocess.run(cmd, capture_output=True, text=True)] gives: it
    raises (the binary is missing, ...) or returns a completed process. *)
Inductive proc :=
  | Raised (e : exn)
  | Completed (returncode : Z) (stdout stderr : string).

Inductive dialog :=
  | showinfo (title message : string)
  | showwarning (title message : string)
  | showerror (title message : string).

(** The environment of one run: the home directory, the user id, the
    behaviour of external commands on the file system, and [str(e)]. *)
Record Env := {
  home : PyPath.path;
  getuid : N;
  os_run : list string → gmap string node → proc * gmap string node;
  str_exn : exn → string
}.

(** ** Python dictionaries as insertion-ordered association lists *)

Module Dict.
Section dict.
Context {V : Type}.

Fixpoint get (k : string) (d : list (string * V)) : option V :=
  match d with
  | [] => None
  | (k', v) :: d' => if decide (k = k') then Some v else get k d'
  end.

(** [d[k] = v]: a present key keeps its position. *)
Fixpoint set (k : string) (v : V) (d : list (string * V)) : list (string * V) :=
  match d with
  | [] => [(k, v)]
  | (k', v') :: d' =>
      if decide (k = k') then (k, v) :: d' else (k', v') :: set k v d'
  end.

Definition keys (d : list (string * V)) : list string := d.*1.

(** [k in d]. *)
Definition mem (k : string) (d : list (string * V)) : bool :=
  bool_decide (is_Some (get k d)).
End dict.
End Dict.

(** ** The object and the world it runs in *)

Record SMBMounter := mk_state {
  server : string;                          (* self.server *)
  server_entry : string;                    (* text of self.server_entry *)
  shares : list (string * nat);             (* self.shares: name -> inner dict *)
  check_vars : option (list (string * bool)); (* self.check_vars, once set *)
  main_frame : bool;                        (* hasattr(self, 'main_frame') *)
  heap : list bool;                         (* the inner dicts' "mounted" *)
  fs : gmap string node;                    (* the file system now *)
  past : list (gmap string node);           (* earlier file systems, newest first *)
  dialogs : list dialog                     (* message boxes shown, oldest first *)
}.

Definition set_server (v : string) (s : SMBMounter) : SMBMounter :=
  mk_state v (server_entry s) (shares s) (check_vars s) (main_frame s)
           (heap s) (fs s) (past s) (dialogs s).
Definition set_shares (v : list (string * nat)) (s : SMBMounter) : SMBMounter :=
  mk_state (server s) (server_entry s) v (check_vars s) (main_frame s)
           (heap s) (fs s) (past s) (dialogs s).
Definition set_check_vars (v : option (list (string * bool))) (s : SMBMounter) : SMBMounter :=
  mk_state (server s) (server_entry s) (shares s) v (main_frame s)
           (heap s) (fs s) (past s) (dialogs s).
Definition set_main_frame (v : bool) (s : SMBMounter) : SMBMounter :=
  mk_state (server s) (server_entry s) (shares s) (check_vars s) v
           (heap s) (fs s) (past s) (dialogs s).
Definition set_heap (v : list bool) (s : SMBMounter) : SMBMounter :=
  mk_state (server s) (server_entry s) (shares s) (check_vars s) (main_frame s)
           v (fs s) (past s) (dialogs s).
(** A file-system write keeps the state it replaces in [past]. *)
Definition set_fs (v : gmap string node) (s : SMBMounter) : SMBMounter :=
  mk_state (server s) (server_entry s) (shares s) (check_vars s) (main_frame s)
           (heap s) v (fs s :: past s) (dialogs s).
Definition add_dialog (d : dialog) (s : SMBMounter) : SMBMounter :=
  mk_state (server s) (server_entry s) (shares s) (check_vars s) (main_frame s)
           (heap s) (fs s) (past s) (dialogs s ++ [d]).

(** ** State and exceptions *)

Inductive result (A : Type) :=
  | Ret (a : A)
  | Raise (e : exn).
Arguments Ret {A} a.
Arguments Raise {A} e.

Definition M (A : Type) : Type := SMBMounter → result A * SMBMounter.

Definition ret {A} (a : A) : M A := λ s, (Ret a, s).
Definition raise {A} (e : exn) : M A := λ s, (Raise e, s).
Definition bind {A B} (m : M A) (f : A → M B) : M B :=
  λ s, match m s with
       | (Ret a, s') => f a s'
       | (Raise e, s') => (Raise e, s')
       end.
(** [try: m except Exception as e: h(e)]. *)
Definition try_except {A} (m : M A) (h : exn → M A) : M A :=
  λ s, match m s with
       | (Ret a, s') => (Ret a, s')
       | (Raise e, s') => h e s'
       end.
Definition gets {A} (f : SMBMounter → A) : M A := λ s, (Ret (f s), s).
Definition modify (f : SMBMounter → SMBMounter) : M unit := λ s, (Ret tt, f s).

Declare Scope py_scope.
Delimit Scope py_scope with py.
Notation "x <- m ;; k" := (bind m (λ x, k))
  (at level 100, m at next level, right associativity) : py_scope.
Notation "m ;; k" := (bind m (λ _, k))
  (at level 100, right associativity) : py_scope.
Local Open Scope py_scope.

(** [for x in l: body(x)]. *)
Fixpoint for_each {A} (l : list A) (body : A → M unit) : M unit :=
  match l with
  | [] => ret tt
  | x :: l' => body x ;; for_each l' body
  end.

(** A loop that carries a local variable. *)
Fixpoint for_fold {A B} (l : list A) (body : B → A → M B) (acc : B) : M B :=
  match l with
  | [] => ret acc
  | x :: l' => acc' <- body acc x ;; for_fold l' body acc'
  end.

(** ** The class [SMBMounter] *)

Section program.
Context (E : Env).

Definition nl : string := String "010" EmptyString.

(** *** Library calls *)

Definition messagebox (d : dialog) : M unit := modify (add_dialog d).

(** [subprocess.run(cmd, capture_output=True, text=True)]: the command may
    change the file system whether it succeeds or not. *)
Definition subprocess_run (cmd : list string) : M (Z * string * string) :=
  λ s, match os_run E cmd (fs s) with
       | (Raised e, fs') => (Raise e, set_fs fs' s)
       | (Completed rc out err, fs') => (Ret (rc, out, err), set_fs fs' s)
       end.

(** [p.exists()], on the paths [stat] can look up: a missing path, a
    dangling link and a loop of links give False.  The errors [stat] has
    for other reasons (a name that is too long, a directory that may not
    be searched), which [exists] lets through, are outside the file
    system modelled here. *)
Definition path_exists (p : PyPath.path) : M bool :=
  gets (λ s, FS.exists_ (fs s) (PyPath.str p)).

(** [p.unlink()]: removes a file or a link, never a directory. *)
Definition unlink (p : PyPath.path) : M unit :=
  λ s, match fs s !! PyPath.str p with
       | None => (Raise (FileNotFoundError (PyPath.str p)), s)
       | Some Directory => (Raise (IsADirectoryError (PyPath.str p)), s)
       | Some _ => (Ret tt, set_fs (delete (PyPath.str p) (fs s)) s)
       end.

(** [p.symlink_to(target)]: fails when anything, even a dangling link,
    is at [p]. *)
Definition symlink_to (p target : PyPath.path) : M unit :=
  λ s, match fs s !! PyPath.str p with
       | Some _ => (Raise (FileExistsError (PyPath.str p)), s)
       | None =>
           (Ret tt, set_fs (<[PyPath.str p := Symlink (PyPath.str target)]> (fs s)) s)
       end.

(** [p.mkdir(parents=True, exist_ok=True)] where the parent directory is
    there and may be written: the one error left is FileExistsError, for
    a path that holds something other than a directory. *)
Definition mkdir (p : PyPath.path) : M unit :=
  λ s, match fs s !! PyPath.str p with
       | None => (Ret tt, set_fs (<[PyPath.str p := Directory]> (fs s)) s)
       | Some _ =>
           if FS.is_dir (fs s) (PyPath.str p) then (Ret tt, s)
           else (Raise (FileExistsError (PyPath.str p)), s)
       end.

(** [p.chmod(mode)] on a path the user owns: the mode itself is not
    modelled, and neither is the PermissionError for a path owned by
    somebody else. *)
Definition chmod (p : PyPath.path) : M unit :=
  λ s, if FS.exists_ (fs s) (PyPath.str p) then (Ret tt, s)
       else (Raise (FileNotFoundError (PyPath.str p)), s).

(** [{"mounted": b}]: a new inner dictionary. *)
Definition new_dict (b : bool) : M nat :=
  λ s, (Ret (length (heap s)), set_heap (heap s ++ [b]) s).

(** [d["mounted"]] and [d["mounted"] = b]. *)
Definition get_mounted (l : nat) : M bool := gets (λ s, heap s !!! l).
Definition set_mounted (l : nat) (b : bool) : M unit :=
  modify (λ s, set_heap (<[l := b]> (heap s)) s).

(** [l[0]]. *)
Definition item0 (l : list string) : M string :=
  match l with
  | x :: _ => ret x
  | [] => raise IndexError
  end.

(** [self.check_vars]. *)
Definition get_check_vars : M (list (string * bool)) :=
  λ s, match check_vars s with
       | Some cv => (Ret cv, s)
       | None => (Raise (AttributeError "check_vars"), s)
       end.

(** *** Configuration set up by [__init__] *)

Definition default_server : string := "lagrange".
Definition smb_links : PyPath.path := PyPath.truediv (home E) "SMBLinks".
Definition credentials_dir : PyPath.path := PyPath.truediv (home E) ".credentials".

(** [self.default_shares]: four names, each with its own inner dictionary
    (heap cells 0 to 3). *)
Definition default_shares : list (string * nat) :=
  [("photo", 0%nat); ("music", 1%nat); ("video", 2%nat); ("commun", 3%nat)].

(** The object after [__init__], on a given file system. *)
Definition init (fs0 : gmap string node) : SMBMounter :=
  {| server := default_server; server_entry := default_server;
     shares := []; check_vars := None; main_frame := false;
     heap := [false; false; false; false];
     fs := fs0; past := []; dialogs := [] |}.

(** *** [setup_directories] *)
Definition setup_directories : M unit :=
  mkdir smb_links ;;
  mkdir credentials_dir ;;
  chmod credentials_dir.

(** *** [detect_shares] *)

(** The test of line 105. *)
Definition is_share_line (line : string) : bool :=
  PyStr.contains "Disk" line && negb (PyStr.contains "$" line).

(** The body of the loop of lines 104-107. *)
Definition detect_line (acc : list (string * nat)) (line : string)
  : M (list (string * nat)) :=
  if is_share_line line then
    tok <- item0 (PyStr.split line) ;;
    let share_name := PyStr.strip tok in
    l <- new_dict false ;;
    ret (Dict.set share_name l acc)
  else ret acc.

Definition detect_shares : M (list (string * nat)) :=
  try_except
    (srv <- gets server ;;
     r <- subprocess_run ["smbclient"; "-L"; srv; "-N"] ;;
     let '(returncode, stdout, stderr) := r in
     if bool_decide (returncode = 0) then
       found <- for_fold (PyStr.split_on "010" stdout) detect_line [] ;;
       match found with
       | [] =>
           messagebox (showwarning "Warning"
             ("No shares found on " +:+ srv +:+ nl +:+ "Using default shares list")) ;;
           ret default_shares
       | _ => ret found
       end
     else
       messagebox (showerror "Error"
         ("Unable to list shares on " +:+ srv +:+ ":" +:+ nl +:+ stderr +:+ nl
          +:+ "Using default shares list")) ;;
       ret default_shares)
    (λ e,
       messagebox (showerror "Error"
         ("Error while detecting shares: " +:+ str_exn E e +:+ nl
          +:+ "Using default shares list")) ;;
       ret default_shares).

(** *** [create_widgets]

    The frame and the check boxes are built, one fresh [BooleanVar]
    (False) per share; the last button names [self.unmount_all], which the
    class does not define, so the attribute lookup raises. *)
Definition create_widgets : M unit :=
  modify (set_main_frame true) ;;
  sh <- gets shares ;;
  modify (set_check_vars (Some ((λ kv, (kv.1, false)) <$> sh))) ;;
  raise (AttributeError "unmount_all").

(** *** [check_mounted_shares] *)
Definition check_mounted_shares : M unit :=
  sh <- gets shares ;;
  for_each sh (λ kv,
    b <- path_exists (PyPath.truediv smb_links kv.1) ;;
    set_mounted kv.2 b).

(** *** [connect_to_server]

    Destroying the previous frame (lines 74-75) changes nothing that is
    modelled. *)
Definition connect_to_server : M unit :=
  entry <- gets server_entry ;;
  let new_server := PyStr.strip entry in
  if bool_decide (new_server = "") then
    messagebox (showerror "Error" "Please enter a server name")
  else
    modify (set_server new_server) ;;
    sh <- detect_shares ;;
    modify (set_shares sh) ;;
    setup_directories ;;
    create_widgets ;;
    check_mounted_shares.

(** *** [refresh_shares] *)

(** The comprehension of lines 189-190. *)
Definition save_mounted_states : M (list (string * bool)) :=
  sh <- gets shares ;;
  for_fold sh (λ acc kv,
    cv <- get_check_vars ;;
    if Dict.mem kv.1 cv then
      b <- get_mounted kv.2 ;;
      ret (Dict.set kv.1 b acc)
    else ret acc) [].

(** The loop of lines 202-204. *)
Definition restore_mounted_states (mounted_states : list (string * bool)) : M unit :=
  for_each mounted_states (λ kv,
    cv <- get_check_vars ;;
    if Dict.mem kv.1 cv then
      modify (set_check_vars (Some (Dict.set kv.1 kv.2 cv)))
    else ret tt).

(** Lines 196-197 destroy the previous frame, which changes nothing that is
    modelled. *)
Definition refresh_shares : M unit :=
  mounted_states <- save_mounted_states ;;
  sh <- detect_shares ;;
  modify (set_shares sh) ;;
  create_widgets ;;
  restore_mounted_states mounted_states.

(** *** [mount_share] *)

Definition mount_uri (srv share : string) : string :=
  "smb://" +:+ srv +:+ "/" +:+ share.

(** Line 220. *)
Definition endpoint (srv share : string) : PyPath.path :=
  PyPath.Path ("/run/user/" +:+ PyStr.of_N (getuid E) +:+ "/gvfs/smb-share:server="
               +:+ srv +:+ ",share=" +:+ share).

Definition link_path (share : string) : PyPath.path :=
  PyPath.truediv smb_links share.

Definition mount_share (share : string) : M bool :=
  try_except
    (srv <- gets server ;;
     r <- subprocess_run ["gio"; "mount"; mount_uri srv share] ;;
     let '(returncode, _, stderr) := r in
     if bool_decide (returncode = 0) then
       e <- path_exists (endpoint srv share) ;;
       (if e then
          l <- path_exists (link_path share) ;;
          (if l then unlink (link_path share) else ret tt) ;;
          symlink_to (link_path share) (endpoint srv share)
        else ret tt) ;;
       messagebox (showinfo "Success"
         ("Share " +:+ share +:+ " mounted successfully in " +:+ PyPath.str smb_links)) ;;
       ret true
     else
       messagebox (showerror "Error" ("Error mounting " +:+ share +:+ nl +:+ stderr)) ;;
       ret false)
    (λ e, messagebox (showerror "Error" (str_exn E e)) ;; ret false).

(** *** [unmount_share] *)
Definition unmount_cmd (srv share : string) : list string :=
  ["gio"; "mount"; "-u"; mount_uri srv share].

Definition unmount_share (share : string) : M bool :=
  try_except
    (l <- path_exists (link_path share) ;;
     (if l then unlink (link_path share) else ret tt) ;;
     srv <- gets server ;;
     r <- subprocess_run (unmount_cmd srv share) ;;
     let '(returncode, _, _) := r in
     (* check=True *)
     (if bool_decide (returncode = 0) then ret tt
      else raise (CalledProcessError returncode (unmount_cmd srv share))) ;;
     ret true)
    (λ e,
       messagebox (showerror "Error"
         ("Error unmounting " +:+ share +:+ ": " +:+ str_exn E e)) ;;
       ret false).

(** *** [mount_selected] and [unmount_selected] *)
Definition mount_selected : M unit :=
  cv <- get_check_vars ;;
  for_each cv (λ kv, if kv.2 then (_ <- mount_share kv.1 ;; ret tt) else ret tt) ;;
  check_mounted_shares.

Definition unmount_selected : M unit :=
  cv <- get_check_vars ;;
  for_each cv (λ kv, if kv.2 then (_ <- unmount_share kv.1 ;; ret tt) else ret tt) ;;
  check_mounted_shares.

End program.

(** ** User actions

    The Tk main loop runs one callback per user action and survives an
    exception raised by a callback: the object keeps whatever the callback
    had done before it raised. *)

Inductive op :=
  | TypeServer (text : string)        (* the user edits the server entry *)
  | Toggle (share : string) (b : bool) (* the user sets or clears a check box *)
  | Connect
  | Refresh
  | MountSelected
  | UnmountSelected.

Section session.
Context (E : Env).

Definition toggle (share : string) (b : bool) (s : SMBMounter) : SMBMounter :=
  match check_vars s with
  | Some cv =>
      if Dict.mem share cv then set_check_vars (Some (Dict.set share b cv)) s else s
  | None => s
  end.

Definition set_server_entry (text : string) (s : SMBMounter) : SMBMounter :=
  mk_state (server s) text (shares s) (check_vars s) (main_frame s)
           (heap s) (fs s) (past s) (dialogs s).

Definition step (o : op) (s : SMBMounter) : SMBMounter :=
  match o with
  | TypeServer text => set_server_entry text s
  | Toggle share b => toggle share b s
  | Connect => (connect_to_server E s).2
  | Refresh => (refresh_shares E s).2
  | MountSelected => (mount_selected E s).2
  | UnmountSelected => (unmount_selected E s).2
  end.

(** The object after a sequence of user actions, oldest first. *)
Definition run (ops : list op) (s : SMBMounter) : SMBMounter :=
  fold_left (λ s o, step o s) ops s.

(** What a discovery pass started in [s] returns. *)
Definition discovered (s : SMBMounter) : list (string * nat) :=
  match (detect_shares E s).1 with
  | Ret found => found
  | Raise _ => []
  end.

(** The listing command and the three message boxes of [detect_shares]. *)
Definition listing_cmd (srv : string) : list string := ["smbclient"; "-L"; srv; "-N"].

Definition msg_no_shares (srv : string) : dialog :=
  showwarning "Warning" ("No shares found on " +:+ srv +:+ nl +:+ "Using default shares list").
Definition msg_listing_failed (srv stderr : string) : dialog :=
  showerror "Error" ("Unable to list shares on " +:+ srv +:+ ":" +:+ nl +:+ stderr
                     +:+ nl +:+ "Using default shares list").
Definition msg_detect_raised (e : exn) : dialog :=
  showerror "Error" ("Error while detecting shares: " +:+ str_exn E e +:+ nl
                     +:+ "Using default shares list").

(** The mount command and the message boxes of [mount_share]. *)
Definition mount_cmd (srv share : string) : list string :=
  ["gio"; "mount"; mount_uri srv share].
Definition msg_mounted (share : string) : dialog :=
  showinfo "Success"
    ("Share " +:+ share +:+ " mounted successfully in " +:+ PyPath.str (smb_links E)).
Definition msg_mount_failed (share stderr : string) : dialog :=
  showerror "Error" ("Error mounting " +:+ share +:+ nl +:+ stderr).
Definition msg_raised (e : exn) : dialog := showerror "Error" (str_exn E e).

(** Every share of the registry has its own inner dictionary, which is
    on the heap. *)
Definition registry_ok (s : SMBMounter) : Prop :=
  NoDup (shares s).*2 ∧ ∀ kv, kv ∈ shares s → (kv.2 < length (heap s))%nat.

(** One turn of the loop of [check_mounted_shares], on the heap. *)
Definition probe (f : gmap string node) (h : list bool) (kv : string * nat) : list bool :=
  <[kv.2 := FS.exists_ f (PyPath.str (link_path E kv.1))]> h.

(** The registry as a list of names with their "mounted" flags. *)
Definition flags (s : SMBMounter) : list (string * bool) :=
  (λ kv : string * nat, (kv.1, heap s !!! kv.2)) <$> shares s.

(** The names selected in the check boxes, in their order. *)
Definition selected (cv : list (string * bool)) : list string :=
  (List.filter (λ kv : string * bool, kv.2) cv).*1.

(** [result.returncode == 0] for a process that ran. *)
Definition succeeded (p : proc) : bool :=
  match p with
  | Completed 0 _ _ => true
  | _ => false
  end.

(** The "mounted" flag of a share of the registry. *)
Definition mounted (share : string) (s : SMBMounter) : option bool :=
  l ← Dict.get share (shares s); Some (heap s !!! l).


End session.

(** A computation that always returns, and one that leaves a field [f] of
    the state as it is, whether it returns or raises. *)
Definition returns {A} (m : M A) : Prop := ∀ s, ∃ a s', m s = (Ret a, s').
Definition keeps {A B} (f : SMBMounter → B) (m : M A) : Prop :=
  ∀ s, f (m s).2 = f s.

Definition heap_size (s : SMBMounter) : nat := length (heap s).

(** The fields that writes to the file system, to the message boxes and to
    the widgets leave alone. *)
Class Frame {B} (f : SMBMounter → B) : Prop := {
  frame_fs : ∀ v s, f (set_fs v s) = f s;
  frame_dialog : ∀ d s, f (add_dialog d s) = f s;
  frame_check_vars : ∀ v s, f (set_check_vars v s) = f s;
  frame_main_frame : ∀ v s, f (set_main_frame v s) = f s
}.

Global Instance frame_shares : Frame shares :=
  Build_Frame _ shares (λ _ _, eq_refl) (λ _ _, eq_refl) (λ _ _, eq_refl) (λ _ _, eq_refl).
Global Instance frame_heap : Frame heap :=
  Build_Frame _ heap (λ _ _, eq_refl) (λ _ _, eq_refl) (λ _ _, eq_refl) (λ _ _, eq_refl).
Global Instance frame_heap_size : Frame heap_size :=
  Build_Frame _ heap_size (λ _ _, eq_refl) (λ _ _, eq_refl) (λ _ _, eq_refl) (λ _ _, eq_refl).

(** Every inner dictionary named in [d] is among the first [n] heap cells. *)
Definition cells_below (n : nat) (d : list (string * nat)) : Prop :=
  ∀ kv, kv ∈ d → (kv.2 < n)%nat.

(** What holds of the registry and the heap in every state the user can
    reach: [registry_ok], and the four inner dictionaries of the default
    shares are on the heap. *)
Definition reachable_ok (s : SMBMounter) : Prop :=
  registry_ok s ∧ (4 ≤ heap_size s)%nat.

(** ** The specification's wording, for comparison with the code *)

Module Spec.

(** The resolver of section 4.2: an empty server or share name is
    rejected. *)
Inductive resolved :=
  | InvalidArgument
  | Resolved (p : string).

Definition resolve (uid : N) (srv share : string) : resolved :=
  if bool_decide (srv = "") || bool_decide (share = "") then InvalidArgument
  else Resolved ("/run/user/" +:+ PyStr.of_N uid +:+ "/gvfs/smb-share:server="
                 +:+ srv +:+ ",share=" +:+ share).

(** The selection of section 4.1: the entry's type marker (its second
    field) says Disk and its name (its first field) does not end in
    the dollar sign. *)
Definition disk_entry (line : string) : option string :=
  match PyStr.split line with
  | name :: ty :: _ =>
      if bool_decide (ty = "Disk") && negb (PyStr.endswith "$" name) then Some name
      else None
  | _ => None
  end.

(** [preserveMountedAcrossRefresh] of section 4.5: a name of the new set
    keeps the flag it had in the old registry, a name that is new gets
    False, a name that is gone is dropped. *)
Definition preserveMountedAcrossRefresh
    (old : list (string * bool)) (new : list string) : list (string * bool) :=
  (λ n, (n, default false (Dict.get n old))) <$> new.

Section batch.
Context (E : Env).

(** [mountMany] and [unmountMany] of section 6: one result per name, in
    the order given. *)
Fixpoint mountMany (names : list string) : M (list (string * bool)) :=
  match names with
  | [] => ret []
  | n :: names' =>
      r <- mount_share E n ;;
      rs <- mountMany names' ;;
      ret ((n, r) :: rs)
  end.

Fixpoint unmountMany (names : list string) : M (list (string * bool)) :=
  match names with
  | [] => ret []
  | n :: names' =>
      r <- unmount_share E n ;;
      rs <- unmountMany names' ;;
      ret ((n, r) :: rs)
  end.
End batch.

(** Atomic replacement of the link of [share], read off the file systems
    the call [mount_share] passes through once the mount command has
    returned: at every moment the link path holds what it held before or
    the fresh link. *)
Definition replaced_atomically (E : Env) (share : string) (s : SMBMounter) : Prop :=
  let s' := (mount_share E share s).2 in
  let f1 := (os_run E (mount_cmd (server s) share) (fs s)).2 in
  let L := PyPath.str (link_path E share) in
  let fresh := Symlink (PyPath.str (endpoint E (server s) share)) in
  fs s' !! L = Some fresh ∧
  ∀ f, f ∈ take (length (past s') - length (past s) - 1) (past s') →
       f !! L = f1 !! L ∨ f !! L = Some fresh.

End Spec.

(** ** Concrete environments and states used in the examples *)

Module Demo.

(** A short rendering of an exception, standing in for [str(e)] in the
    examples: Python's own text has quotes around paths, names both paths
    of a failed [symlink] and quotes the command of a CalledProcessError. *)
Definition render (e : exn) : string :=
  match e with
  | FileExistsError p => "[Errno 17] File exists: " +:+ p
  | FileNotFoundError p => "[Errno 2] No such file or directory: " +:+ p
  | IsADirectoryError p => "[Errno 21] Is a directory: " +:+ p
  | CalledProcessError rc _ => "returned non-zero exit status " +:+ PyStr.of_Z rc
  | AttributeError name => "'SMBMounter' object has no attribute " +:+ name
  | IndexError => "list index out of range"
  | OSError msg => msg
  end.

(** User ann, uid 1000, with a given behaviour of the external commands. *)
Definition env (run : list string → gmap string node → proc * gmap string node) : Env :=
  {| home := PyPath.Path "/home/ann"; getuid := 1000%N;
     os_run := run; str_exn := render |}.

Definition link_photo : string := "/home/ann/SMBLinks/photo".
Definition ep (srv share : string) : string :=
  "/run/user/1000/gvfs/smb-share:server=" +:+ srv +:+ ",share=" +:+ share.

(** Every command exits with status 0, or with status 1, and leaves the
    file system alone. *)
Definition run_ok (cmd : list string) (f : gmap string node) : proc * gmap string node :=
  (Completed 0 "" "", f).

(** [gio mount] succeeds and makes the endpoint of lagrange/photo appear. *)
Definition run_mounts_photo (cmd : list string) (f : gmap string node)
  : proc * gmap string node :=
  (Completed 0 "" "", <[ep "lagrange" "photo" := Directory]> f).

(** [smbclient -L] prints [out] and exits with status 0. *)
Definition run_lists (out : string) (cmd : list string) (f : gmap string node)
  : proc * gmap string node :=
  (Completed 0 out "", f).

(** The listing of section 8 of the specification. *)
Definition listing_lagrange : string :=
  "photo Disk" +:+ nl +:+ "IPC$ IPC" +:+ nl +:+ "music Disk".

(** A disk share whose comment mentions a dollar sign. *)
Definition listing_dollar : string :=
  "backup Disk Mirror of C$" +:+ nl +:+ "music Disk".

(** Three shares A, B and C: mounting B fails, mounting A or C succeeds
    and makes the endpoint appear. *)
Definition run_abc (cmd : list string) (f : gmap string node) : proc * gmap string node :=
  match cmd with
  | ["gio"; "mount"; "smb://lagrange/A"] =>
      (Completed 0 "" "", <[ep "lagrange" "A" := Directory]> f)
  | ["gio"; "mount"; "smb://lagrange/C"] =>
      (Completed 0 "" "", <[ep "lagrange" "C" := Directory]> f)
  | _ => (Completed 1 "" "failed", f)
  end.

Definition abc_selected : SMBMounter :=
  {| server := "lagrange"; server_entry := "lagrange";
     shares := [("A", 4%nat); ("B", 5%nat); ("C", 6%nat)];
     check_vars := Some [("A", true); ("B", true); ("C", true)];
     main_frame := true; heap := [false; false; false; false; false; false; false];
     fs := ∅; past := []; dialogs := [] |}.

(** The registry holds A (mounted) and B (not mounted); the server now
    lists A and C. *)
Definition listing_ac : string := "A Disk" +:+ nl +:+ "C Disk".
Definition registry_ab : SMBMounter :=
  {| server := "lagrange"; server_entry := "lagrange";
     shares := [("A", 4%nat); ("B", 5%nat)];
     check_vars := Some [("A", false); ("B", false)];
     main_frame := true; heap := [false; false; false; false; true; false];
     fs := ∅; past := []; dialogs := [] |}.

(** A directory sits where the link of photo would be. *)
Definition fs_dir_at_link : gmap string node := {[ link_photo := Directory ]}.

(** photo of lagrange is mounted and linked. *)
Definition fs_mounted : gmap string node :=
  {[ link_photo := Symlink (ep "lagrange" "photo"); ep "lagrange" "photo" := Directory ]}.

(** The link of photo is left over from an earlier session: its target,
    the endpoint of lagrange/photo, is gone. *)
Definition fs_stale : gmap string node :=
  {[ link_photo := Symlink (ep "lagrange" "photo") ]}.

(** The link of photo points at the endpoint of another server, which is
    gone, while the endpoint of lagrange/photo is there. *)
Definition fs_stale_other : gmap string node :=
  {[ link_photo := Symlink (ep "euler" "photo"); ep "lagrange" "photo" := Directory ]}.

(** The link of photo points at the live endpoint of server euler. *)
Definition fs_other_live : gmap string node :=
  {[ link_photo := Symlink (ep "euler" "photo"); ep "euler" "photo" := Directory ]}.

(** The object with one registered share photo (heap cell 4). *)
Definition with_photo (f : gmap string node) : SMBMounter :=
  {| server := "lagrange"; server_entry := "lagrange";
     shares := [("photo", 4%nat)]; check_vars := Some [("photo", false)];
     main_frame := true; heap := [false; false; false; false; false];
     fs := f; past := []; dialogs := [] |}.

End Demo.

(** ** Further notions used in the properties of the methods *)

(** Every character of [s] is white space; the empty string is blank. *)
Fixpoint all_blank (s : string) : bool :=
  match s with
  | EmptyString => true
  | String a s' => PyStr.isspace a && all_blank s'
  end.

(** The check boxes [create_widgets] builds for a registry: one per name,
    none set. *)
Definition unticked (sh : list (string * nat)) : list (string * bool) :=
  (λ kv : string * nat, (kv.1, false)) <$> sh.

(** What [str] puts before the last component of [p / name]. *)
Definition stem (p : PyPath.path) : string :=
  match PyPath.parts p with
  | [] => PyPath.root p
  | l => PyPath.root p +:+ PyStr.join "/" l +:+ "/"
  end.

(** A name that is one path component: not empty, not a dot, no slash. *)
Definition component (name : string) : Prop :=
  PyStr.contains "/" name = false ∧ name ≠ "" ∧ name ≠ ".".

(** The object after [action] has been called on every name of [names]
    in turn, each call starting from the state the call before it left,
    whatever that call returned. *)
Definition after_each (action : string → M bool) (names : list string)
    (s : SMBMounter) : SMBMounter :=
  fold_left (λ st n, (action n st).2) names s.

Global Instance frame_server : Frame server :=
  Build_Frame _ server (λ _ _, eq_refl) (λ _ _, eq_refl) (λ _ _, eq_refl) (λ _ _, eq_refl).

Module Demo2.

(** A regular file sits where the links directory should be. *)
Definition fs_file_at_links : gmap string node := {[ "/home/ann/SMBLinks" := File ]}.

(** The listing command cannot be run. *)
Definition run_missing (cmd : list string) (f : gmap string node) : proc * gmap string node :=
  (Raised (OSError "[Errno 2] No such file or directory: 'smbclient'"), f).

(** The fallback registry after photo has been found mounted. *)
Definition fallback_photo_mounted : SMBMounter :=
  {| server := "lagrange"; server_entry := "lagrange";
     shares := default_shares; check_vars := Some (unticked default_shares);
     main_frame := true; heap := [true; false; false; false];
     fs := Demo.fs_mounted; past := []; dialogs := [] |}.

(** The user has typed only blanks. *)
Definition blank_entry : SMBMounter :=
  {| server := "lagrange"; server_entry := "   ";
     shares := []; check_vars := None; main_frame := false;
     heap := [false; false; false; false];
     fs := ∅; past := []; dialogs := [] |}.

(** The unmount command removes the endpoint of lagrange/photo. *)
Definition run_mount_unmount (cmd : list string) (f : gmap string node)
  : proc * gmap string node :=
  match cmd with
  | ["gio"; "mount"; _] => (Completed 0 "" "", <[Demo.ep "lagrange" "photo" := Directory]> f)
  | ["gio"; "mount"; "-u"; _] => (Completed 0 "" "", delete (Demo.ep "lagrange" "photo") f)
  | _ => (Completed 1 "" "", f)
  end.



End Demo2.

(** * Properties *)

(** ** The file system *)

Section fs_facts.
Implicit Types (f : gmap string node) (p t : string).

Lemma stat_fuel_vacant n f p : f !! p = None → FS.stat_fuel n f p = None.
Proof. intros H. destruct n; simpl; by rewrite H. Qed.

Lemma exists_vacant f p : f !! p = None → FS.exists_ f p = false.
Proof.
  intros H. unfold FS.exists_, FS.stat. rewrite stat_fuel_vacant by done.
  apply bool_decide_eq_false. by intros [? ?].
Qed.


Lemma exists_is_Some f p : FS.exists_ f p = true → is_Some (f !! p).
Proof.
  unfold FS.exists_, FS.stat, FS.MAXSYMLINKS. intros H%bool_decide_eq_true.
  simpl in H. destruct (f !! p); [eauto | by destruct H].
Qed.

Lemma exists_directory f p : f !! p = Some Directory → FS.exists_ f p = true.
Proof.
  intros H. unfold FS.exists_, FS.stat, FS.MAXSYMLINKS. simpl. rewrite H.
  apply bool_decide_eq_true. eauto.
Qed.

Lemma exists_file f p : f !! p = Some File → FS.exists_ f p = true.
Proof.
  intros H. unfold FS.exists_, FS.stat, FS.MAXSYMLINKS. simpl. rewrite H.
  apply bool_decide_eq_true. eauto.
Qed.

(** A path that holds no symbolic link exists exactly when it is
    occupied. *)
Lemma exists_plain f p :
  (∀ t, f !! p ≠ Some (Symlink t)) →
  FS.exists_ f p = bool_decide (is_Some (f !! p)).
Proof.
  intros H. destruct (f !! p) as [[t| |]|] eqn:Hp.
  - by destruct (H t).
  - rewrite exists_directory by done. symmetry. apply bool_decide_eq_true. eauto.
  - rewrite exists_file by done. symmetry. apply bool_decide_eq_true. eauto.
  - rewrite exists_vacant by done. symmetry. apply bool_decide_eq_false.
    by intros [? ?].
Qed.

(** A link to a path that holds no link exists exactly when its target
    does. *)
Lemma exists_link_to_plain f p t :
  f !! p = Some (Symlink t) →
  (∀ t', f !! t ≠ Some (Symlink t')) →
  FS.exists_ f p = FS.exists_ f t.
Proof.
  intros Hp Ht. rewrite (exists_plain f t) by done.
  unfold FS.exists_, FS.stat, FS.MAXSYMLINKS. simpl. rewrite Hp.
  destruct (f !! t) as [[t'| |]|] eqn:Hq; try done. by destruct (Ht t').
Qed.

Lemma dangling_not_exists f p : FS.dangling f p → FS.exists_ f p = false.
Proof. by intros [_ ?]. Qed.

Lemma dangling_occupied f p : FS.dangling f p → is_Some (f !! p).
Proof. intros [[t Ht] _]. eauto. Qed.
End fs_facts.

(** ** Strings and dictionaries *)

Section str_facts.

(** A line in which a word starting with a non-blank character occurs
    has a first field: [line.split()[0]] does not raise. *)
Lemma split_nonempty a p s :
  PyStr.isspace a = false →
  PyStr.contains (String a p) s = true →
  PyStr.split s ≠ [].
Proof.
  intros Ha. induction s as [|b s IH]; simpl; [done|].
  intros H. apply orb_true_iff in H as [H|H].
  - destruct (decide (a = b)) as [<-|]; [|done]. rewrite Ha.
    destruct s as [|c s']; [done|]. destruct (PyStr.isspace c); [done|].
    by destruct (PyStr.split (String c s')).
  - specialize (IH H). destruct (PyStr.isspace b); [done|].
    destruct s as [|c s']; [done|]. destruct (PyStr.isspace c); [done|].
    by destruct (PyStr.split (String c s')).
Qed.

Lemma share_line_has_name line :
  is_share_line line = true → ∃ tok, head (PyStr.split line) = Some tok.
Proof.
  unfold is_share_line. intros [H _]%andb_true_iff.
  apply (split_nonempty "D" "isk") in H; [|done].
  destruct (PyStr.split line) as [|tok ?]; [done|]. by exists tok.
Qed.

End str_facts.

Section dict_facts.
Context {V : Type}.
Implicit Types (d : list (string * V)) (k : string) (v : V).

Lemma dict_keys_set k v d x :
  x ∈ Dict.keys (Dict.set k v d) ↔ x = k ∨ x ∈ Dict.keys d.
Proof.
  unfold Dict.keys. induction d as [|[k' v'] d IH]; simpl.
  - rewrite list_elem_of_singleton, elem_of_nil. tauto.
  - destruct (decide (k = k')) as [->|Hne]; simpl.
    + rewrite !elem_of_cons. tauto.
    + rewrite !elem_of_cons, IH. tauto.
Qed.

Lemma dict_keys_set_NoDup k v d :
  NoDup (Dict.keys d) → NoDup (Dict.keys (Dict.set k v d)).
Proof.
  unfold Dict.keys. induction d as [|[k' v'] d IH]; simpl; intros Hnd.
  - apply NoDup_singleton.
  - apply NoDup_cons in Hnd as [Hnotin Hnd].
    destruct (decide (k = k')) as [->|Hne]; simpl.
    + by apply NoDup_cons.
    + apply NoDup_cons. split; [|by apply IH].
      intros Hin. apply (dict_keys_set k v d k') in Hin as [->|Hin]; done.
Qed.

Lemma dict_set_nonempty k v d : Dict.set k v d ≠ [].
Proof. destruct d as [|[k' v'] d]; simpl; [done|]. by destruct (decide (k = k')). Qed.

Lemma dict_get_elem k v d : Dict.get k d = Some v → (k, v) ∈ d.
Proof.
  induction d as [|[k' v'] d IH]; simpl; [done|].
  destruct (decide (k = k')) as [->|Hne].
  - intros [= ->]. apply elem_of_cons. by left.
  - intros H. apply elem_of_cons. right. by apply IH.
Qed.
End dict_facts.

(** A field of [s.split()] holds no white space, so [strip] leaves it as it
    is. *)
Section strip_facts.

Lemma split_blank_free s tok : tok ∈ PyStr.split s → PyStr.blank_free tok = true.
Proof.
  revert tok. induction s as [|a s IH]; simpl; intros tok.
  - by intros ?%elem_of_nil.
  - destruct (PyStr.isspace a) eqn:Ha; [by apply IH|].
    destruct s as [|b s'].
    + intros ->%list_elem_of_singleton. simpl. by rewrite Ha.
    + destruct (PyStr.isspace b) eqn:Hb.
      * intros [->|H]%elem_of_cons; [simpl; by rewrite Ha | by apply IH].
      * destruct (PyStr.split (String b s')) as [|h t] eqn:Hs.
        -- intros ->%list_elem_of_singleton. simpl. by rewrite Ha.
        -- intros [->|H]%elem_of_cons.
           ++ simpl. rewrite Ha. simpl. apply IH, elem_of_cons. by left.
           ++ apply IH, elem_of_cons. by right.
Qed.

Lemma lstrip_blank_free s : PyStr.blank_free s = true → PyStr.lstrip s = s.
Proof.
  destruct s as [|a s]; simpl; [done|].
  intros [Ha _]%andb_true_iff. by destruct (PyStr.isspace a).
Qed.

Lemma rev_app_blank_free s1 s2 :
  PyStr.blank_free (String.rev_app s1 s2) = PyStr.blank_free s1 && PyStr.blank_free s2.
Proof.
  revert s2. induction s1 as [|a s1 IH]; intros s2; simpl; [done|].
  rewrite IH. simpl. destruct (PyStr.isspace a), (PyStr.blank_free s1); simpl; done.
Qed.

Lemma rev_app_rev_app s1 s2 s3 :
  String.rev_app (String.rev_app s1 s2) s3 = String.rev_app s2 (s1 +:+ s3).
Proof.
  revert s2 s3. induction s1 as [|a s1 IH]; intros s2 s3; [done|].
  simpl. by rewrite IH.
Qed.

Lemma string_app_nil_r s : s +:+ "" = s.
Proof. induction s as [|a s IH]; [done|]. unfold String.app in *. simpl. by rewrite IH. Qed.

Lemma rev_rev s : String.rev (String.rev s) = s.
Proof. unfold String.rev. rewrite rev_app_rev_app. simpl. apply string_app_nil_r. Qed.

Lemma strip_blank_free s : PyStr.blank_free s = true → PyStr.strip s = s.
Proof.
  intros H. unfold PyStr.strip, PyStr.rstrip. rewrite (lstrip_blank_free s) by done.
  rewrite lstrip_blank_free; [apply rev_rev|].
  unfold String.rev. rewrite rev_app_blank_free, H. done.
Qed.

Lemma strip_first_field line tok :
  head (PyStr.split line) = Some tok → PyStr.strip tok = tok.
Proof.
  intros H. apply strip_blank_free, (split_blank_free line).
  destruct (PyStr.split line) as [|x l]; [done|]. injection H as ->.
  apply elem_of_cons. by left.
Qed.

End strip_facts.

(** ** [unmount_share] *)

Section unmount.
Context (E : Env).

Lemma unmount_share_eq share s :
  let L := PyPath.str (link_path E share) in
  let cmd := unmount_cmd (server s) share in
  fs s !! L ≠ Some Directory →
  ∃ s0, fs s0 = (if FS.exists_ (fs s) L then delete L (fs s) else fs s)
    ∧ server s0 = server s
    ∧ unmount_share E share s =
        match os_run E cmd (fs s0) with
        | (Completed 0 _ _, f') => (Ret true, set_fs f' s0)
        | (Completed rc _ _, f') =>
            (Ret false,
             add_dialog (showerror "Error" ("Error unmounting " +:+ share +:+ ": "
                          +:+ str_exn E (CalledProcessError rc cmd))) (set_fs f' s0))
        | (Raised e, f') =>
            (Ret false,
             add_dialog (showerror "Error" ("Error unmounting " +:+ share +:+ ": "
                          +:+ str_exn E e)) (set_fs f' s0))
        end.
Proof.
  intros L cmd Hdir.
  unfold unmount_share, try_except, bind, path_exists, gets. simpl.
  fold L. destruct (FS.exists_ (fs s) L) eqn:Hex.
  - exists (set_fs (delete L (fs s)) s). split; [done|]. split; [done|].
    unfold unlink. fold L.
    destruct (exists_is_Some _ _ Hex) as [n Hn]. rewrite Hn.
    destruct n as [t| |]; [| by destruct Hdir |].
    + unfold subprocess_run; simpl. fold cmd.
      destruct (os_run E cmd (delete L (fs s))) as [[e|rc out err] f']; [done|].
      destruct rc; done.
    + unfold subprocess_run; simpl. fold cmd.
      destruct (os_run E cmd (delete L (fs s))) as [[e|rc out err] f']; [done|].
      destruct rc; done.
  - exists s. split; [done|]. split; [done|].
    unfold ret, subprocess_run; simpl. fold cmd.
    destruct (os_run E cmd (fs s)) as [[e|rc out err] f']; [done|].
    destruct rc; done.
Qed.

End unmount.



(** ** [detect_shares] *)

Section detect.
Context (E : Env).

Lemma detect_line_share acc line s tok :
  is_share_line line = true →
  head (PyStr.split line) = Some tok →
  detect_line acc line s
  = (Ret (Dict.set tok (length (heap s)) acc), set_heap (heap s ++ [false]) s).
Proof.
  intros Hl Ht. unfold detect_line. rewrite Hl.
  pose proof (strip_first_field line tok Ht) as Hs.
  destruct (PyStr.split line) as [|x l]; [done|]. injection Ht as ->.
  unfold bind, item0, ret, new_dict. by rewrite Hs.
Qed.

Lemma detect_line_other acc line s :
  is_share_line line = false → detect_line acc line s = (Ret acc, s).
Proof. intros Hl. unfold detect_line. by rewrite Hl. Qed.

(** The loop of lines 104-107 never raises, touches only the heap, and
    collects the first field of every line that passes the test. *)
Lemma detect_loop lines : ∀ acc s,
  ∃ found h,
    for_fold lines detect_line acc s = (Ret found, set_heap h s)
    ∧ (∀ x, x ∈ Dict.keys found ↔
            x ∈ Dict.keys acc ∨
            ∃ line, line ∈ lines ∧ is_share_line line = true
                    ∧ head (PyStr.split line) = Some x)
    ∧ (NoDup (Dict.keys acc) → NoDup (Dict.keys found))
    ∧ (found = [] ↔ acc = [] ∧ existsb is_share_line lines = false).
Proof.
  induction lines as [|line lines IH]; intros acc s.
  - exists acc, (heap s). simpl. split; [by destruct s|]. split.
    + intros x. split; [by left|]. intros [?|(l & []%elem_of_nil & _)]. done.
    + split; [done|]. split; [done | by intros [? _]].
  - simpl. unfold bind. destruct (is_share_line line) eqn:Hl.
    + destruct (share_line_has_name line Hl) as [tok Htok].
      rewrite (detect_line_share acc line s tok Hl Htok).
      destruct (IH (Dict.set tok (length (heap s)) acc)
                   (set_heap (heap s ++ [false]) s)) as (found & h & Heq & Hk & Hnd & Hnil).
      exists found, h. split; [exact Heq|]. split; [|split].
      * intros x. rewrite Hk, dict_keys_set. split.
        -- intros [[->|?]|(l & ? & ? & ?)]; [right|by left|right].
           ++ exists line. split; [apply elem_of_cons; by left|done].
           ++ exists l. split; [apply elem_of_cons; by right|done].
        -- intros [?|(l & [->|?]%elem_of_cons & ? & Hx)].
           ++ left. by right.
           ++ left. left. rewrite Htok in Hx. by injection Hx.
           ++ right. by exists l.
      * intros Hacc. by apply Hnd, dict_keys_set_NoDup.
      * split.
        -- intros Hf. apply Hnil in Hf as [Hf _]. by apply dict_set_nonempty in Hf.
        -- by intros [_ ?].
    + rewrite (detect_line_other acc line s Hl).
      destruct (IH acc s) as (found & h & Heq & Hk & Hnd & Hnil).
      exists found, h. split; [exact Heq|]. split; [|split].
      * intros x. rewrite Hk. split.
        -- intros [?|(l & ? & ? & ?)]; [by left|right].
           exists l. split; [apply elem_of_cons; by right|done].
        -- intros [?|(l & [->|?]%elem_of_cons & Hsl & Hx)]; [by left| |].
           ++ by rewrite Hl in Hsl.
           ++ right. by exists l.
      * done.
      * done.
Qed.


Lemma detect_shares_run s :
  detect_shares E s =
    match os_run E (listing_cmd (server s)) (fs s) with
    | (Raised e, f') =>
        (Ret default_shares, add_dialog (msg_detect_raised E e) (set_fs f' s))
    | (Completed rc out err, f') =>
        if bool_decide (rc = 0) then
          match for_fold (PyStr.split_on "010" out) detect_line [] (set_fs f' s) with
          | (Ret [], s') => (Ret default_shares, add_dialog (msg_no_shares (server s)) s')
          | (Ret found, s') => (Ret found, s')
          | (Raise e, s') => (Ret default_shares, add_dialog (msg_detect_raised E e) s')
          end
        else
          (Ret default_shares,
           add_dialog (msg_listing_failed (server s) err) (set_fs f' s))
    end.
Proof.
  unfold detect_shares, try_except, bind, gets, subprocess_run, listing_cmd. simpl.
  destruct (os_run E _ (fs s)) as [[e|rc out err] f']; [done|].
  destruct (bool_decide (rc = 0)); [|done].
  destruct (for_fold _ detect_line [] (set_fs f' s)) as [[[|kv found]|e] s']; done.
Qed.

(** Whatever the listing command does, [detect_shares] returns a
    registry. *)
Lemma detect_shares_returns (s : SMBMounter) :
  ∃ found s', detect_shares E s = (Ret found, s').
Proof.
  rewrite detect_shares_run.
  destruct (os_run E _ (fs s)) as [[e|rc out err] f']; [by eexists _, _|].
  destruct (bool_decide (rc = 0)); [|by eexists _, _].
  destruct (for_fold _ detect_line [] (set_fs f' s)) as [[[|kv found]|e] s'];
    by eexists _, _.
Qed.


(** C2, as the code has it: when the listing command exits with status 0
    and some line passes the test, the names returned are exactly the
    first fields of the lines in which "Disk" occurs and no dollar sign
    occurs, anywhere in the line. *)
Theorem detect_shares_selects (s : SMBMounter) (out err : string) f' :
  os_run E (listing_cmd (server s)) (fs s) = (Completed 0 out err, f') →
  existsb is_share_line (PyStr.split_on "010" out) = true →
  ∃ found s',
    detect_shares E s = (Ret found, s')
    ∧ ∀ name, name ∈ Dict.keys found ↔
        ∃ line, line ∈ PyStr.split_on "010" out
                ∧ PyStr.contains "Disk" line = true
                ∧ PyStr.contains "$" line = false
                ∧ head (PyStr.split line) = Some name.
Proof.
  intros Hrun Hsome. rewrite detect_shares_run, Hrun. simpl.
  destruct (detect_loop (PyStr.split_on "010" out) [] (set_fs f' s))
    as (found & h & -> & Hk & _ & Hnil).
  destruct found as [|kv found].
  { destruct Hnil as [Hnil _]. destruct Hnil as [_ Hnil]; [done|]. congruence. }
  eexists _, _. split; [done|]. intros name. rewrite Hk. split.
  - intros [[]%elem_of_nil|(line & Hin & Hl & Hx)]. exists line.
    unfold is_share_line in Hl. apply andb_true_iff in Hl as [H1 H2].
    apply negb_true_iff in H2. done.
  - intros (line & Hin & H1 & H2 & Hx). right. exists line.
    unfold is_share_line. rewrite H1, H2. done.
Qed.

End detect.

(** The listing of the specification's example. *)
Lemma detect_shares_selects_witness :
  ∃ found s',
    detect_shares (Demo.env (Demo.run_lists Demo.listing_lagrange)) (init ∅) = (Ret found, s')
    ∧ ∀ name, name ∈ Dict.keys found ↔
        ∃ line, line ∈ PyStr.split_on "010" Demo.listing_lagrange
                ∧ PyStr.contains "Disk" line = true
                ∧ PyStr.contains "$" line = false
                ∧ head (PyStr.split line) = Some name.
Proof.
  apply (detect_shares_selects (Demo.env (Demo.run_lists Demo.listing_lagrange))
           (init ∅) Demo.listing_lagrange "" ∅).
  - reflexivity.
  - vm_compute. reflexivity.
Defined.

Example detect_shares_lagrange :
  Dict.keys (discovered (Demo.env (Demo.run_lists Demo.listing_lagrange)) (init ∅))
  = ["photo"; "music"].
Proof. vm_compute. reflexivity. Qed.

(** C2 as stated fails: the entry backup has the type marker Disk and a name
    that does not end in a dollar sign, yet it is not discovered, because a
    dollar sign occurs later in its line. *)
Lemma detect_shares_dollar_in_comment :
  ¬ (∀ name,
       name ∈ Dict.keys (discovered (Demo.env (Demo.run_lists Demo.listing_dollar)) (init ∅))
       ↔ ∃ line, line ∈ PyStr.split_on "010" Demo.listing_dollar
                 ∧ Spec.disk_entry line = Some name).
Proof.
  intros H. destruct (H "backup") as [_ Hin].
  assert (Hk : Dict.keys (discovered (Demo.env (Demo.run_lists Demo.listing_dollar)) (init ∅))
               = ["music"]) by (vm_compute; reflexivity).
  rewrite Hk in Hin.
  assert (Hb : "backup" ∈ ["music"]).
  { apply Hin. exists "backup Disk Mirror of C$". split.
    - apply elem_of_cons. left. vm_compute. reflexivity.
    - vm_compute. reflexivity. }
  apply list_elem_of_singleton in Hb. discriminate.
Qed.

(** ** [mount_share] *)

Section mount.
Context (E : Env).

(** The run of [mount_share], case by case. *)
Lemma mount_share_run share s :
  let L := PyPath.str (link_path E share) in
  let Ep := PyPath.str (endpoint E (server s) share) in
  mount_share E share s =
    match os_run E (mount_cmd (server s) share) (fs s) with
    | (Raised e, f1) => (Ret false, add_dialog (msg_raised E e) (set_fs f1 s))
    | (Completed rc out err, f1) =>
        let s1 := set_fs f1 s in
        if bool_decide (rc = 0) then
          if FS.exists_ f1 Ep then
            if FS.exists_ f1 L then
              match f1 !! L with
              | None => (Ret false, add_dialog (msg_raised E (FileNotFoundError L)) s1)
              | Some Directory =>
                  (Ret false, add_dialog (msg_raised E (IsADirectoryError L)) s1)
              | Some _ =>
                  (Ret true,
                   add_dialog (msg_mounted E share)
                     (set_fs (<[L := Symlink Ep]> (delete L f1)) (set_fs (delete L f1) s1)))
              end
            else
              match f1 !! L with
              | None =>
                  (Ret true,
                   add_dialog (msg_mounted E share) (set_fs (<[L := Symlink Ep]> f1) s1))
              | Some _ => (Ret false, add_dialog (msg_raised E (FileExistsError L)) s1)
              end
          else (Ret true, add_dialog (msg_mounted E share) s1)
        else (Ret false, add_dialog (msg_mount_failed share err) s1)
    end.
Proof.
  intros L Ep.
  unfold mount_share, try_except, bind, gets, subprocess_run, mount_cmd. simpl.
  destruct (os_run E _ (fs s)) as [[e|rc out err] f1]; [done|].
  destruct (bool_decide (rc = 0)); [|done].
  unfold path_exists, gets. simpl. fold Ep.
  destruct (FS.exists_ f1 Ep); [|done].
  unfold unlink, symlink_to, ret. simpl. fold L Ep.
  destruct (FS.exists_ f1 L); simpl.
  - destruct (f1 !! L) as [[t| |]|] eqn:HL; simpl; try done.
    + by rewrite lookup_delete_eq.
    + by rewrite lookup_delete_eq.
  - destruct (f1 !! L) as [n|] eqn:HL; done.
Qed.

(** [mount_share] never raises. *)
Lemma mount_share_returns share s : ∃ b s', mount_share E share s = (Ret b, s').
Proof.
  rewrite mount_share_run.
  destruct (os_run E _ (fs s)) as [[e|rc out err] f1]; [by eexists _, _|].
  simpl. repeat (case_match; try by eexists _, _).
Qed.

(** C4, as the code has it: when the mount command exits with status 0,
    the endpoint exists, and the link path is vacant or holds something
    that resolves and is not a directory, [mount_share] reports success and
    leaves a link to the endpoint at the link path.  It does so in two
    steps, not in one: what was at the link path is unlinked first, and the
    file system in between has nothing there. *)
Theorem mount_share_replaces_link (share : string) (s : SMBMounter) out err f1 :
  let L := PyPath.str (link_path E share) in
  let Ep := PyPath.str (endpoint E (server s) share) in
  os_run E (mount_cmd (server s) share) (fs s) = (Completed 0 out err, f1) →
  FS.exists_ f1 Ep = true →
  f1 !! L = None ∨ (FS.exists_ f1 L = true ∧ f1 !! L ≠ Some Directory) →
  let r := mount_share E share s in
  r.1 = Ret true
  ∧ fs r.2 = <[L := Symlink Ep]> (delete L f1)
  ∧ fs r.2 !! L = Some (Symlink Ep)
  ∧ past r.2 = match f1 !! L with
               | Some _ => [delete L f1]
               | None => []
               end ++ f1 :: fs s :: past s.
Proof.
  intros L Ep Hrun Hep Hlink r. unfold r.
  rewrite mount_share_run, Hrun. simpl. fold L Ep. rewrite Hep.
  destruct Hlink as [Hv|[Hex Hnd]].
  - rewrite (exists_vacant _ _ Hv), Hv. simpl.
    rewrite (delete_id _ _ Hv), lookup_insert_eq. done.
  - rewrite Hex. destruct (exists_is_Some _ _ Hex) as [n Hn]. rewrite Hn.
    destruct n as [t| |]; [| by destruct Hnd |]; simpl; by rewrite lookup_insert_eq.
Qed.

(** C10, as the code has it: when the mount command has exited with status
    0, the endpoint exists, and the link path holds a link that does not
    resolve, [mount_share] reports failure: the existence test follows the
    link, so the link is not unlinked, [symlink_to] raises FileExistsError,
    and the file system stays as the mount command left it, the mount in
    place and the stale link too. *)
Theorem mount_share_stale_link (share : string) (s : SMBMounter) out err f1 :
  let L := PyPath.str (link_path E share) in
  let Ep := PyPath.str (endpoint E (server s) share) in
  os_run E (mount_cmd (server s) share) (fs s) = (Completed 0 out err, f1) →
  FS.exists_ f1 Ep = true →
  FS.dangling f1 L →
  let r := mount_share E share s in
  r.1 = Ret false
  ∧ fs r.2 = f1
  ∧ FS.dangling (fs r.2) L
  ∧ FS.exists_ (fs r.2) Ep = true
  ∧ dialogs r.2 = dialogs s ++ [msg_raised E (FileExistsError L)].
Proof.
  intros L Ep Hrun Hep Hd r. unfold r.
  rewrite mount_share_run, Hrun. simpl. fold L Ep. rewrite Hep.
  rewrite (dangling_not_exists _ _ Hd).
  destruct (dangling_occupied _ _ Hd) as [n Hn]. rewrite Hn. simpl. done.
Qed.
End mount.

(** ** [check_mounted_shares] *)

Section reconcile.
Context (E : Env).

Lemma check_loop sh : ∀ h s,
  for_each sh (λ kv : string * nat,
      b <- path_exists (PyPath.truediv (smb_links E) kv.1) ;; set_mounted kv.2 b)
    (set_heap h s)
  = (Ret tt, set_heap (fold_left (probe E (fs s)) sh h) s).
Proof.
  induction sh as [|kv sh IH]; intros h s; [done|].
  simpl. unfold bind at 1. unfold bind at 1. unfold path_exists, gets, set_mounted, modify.
  simpl. apply (IH _ s).
Qed.

(** [check_mounted_shares] never raises and writes only the flags. *)
Lemma check_mounted_shares_run s :
  check_mounted_shares E s
  = (Ret tt, set_heap (fold_left (probe E (fs s)) (shares s) (heap s)) s).
Proof.
  unfold check_mounted_shares, bind, gets. simpl.
  rewrite <- (check_loop (shares s) (heap s) s). by destruct s.
Qed.

Lemma probe_fold_length f sh : ∀ h, length (fold_left (probe E f) sh h) = length h.
Proof.
  induction sh as [|kv sh IH]; intros h; simpl; [done|].
  rewrite IH. apply length_insert.
Qed.

Lemma probe_fold_other f sh l : ∀ h,
  l ∉ sh.*2 → fold_left (probe E f) sh h !!! l = h !!! l.
Proof.
  induction sh as [|kv sh IH]; intros h Hl; simpl; [done|].
  rewrite fmap_cons in Hl. apply not_elem_of_cons in Hl as [Hne Hl].
  rewrite IH by done. unfold probe. by apply list_lookup_total_insert_ne.
Qed.

(** After the loop, the flag of a share says whether its link path
    exists. *)
Lemma probe_fold_flag f sh share l : ∀ h,
  (share, l) ∈ sh → NoDup sh.*2 → (l < length h)%nat →
  fold_left (probe E f) sh h !!! l = FS.exists_ f (PyPath.str (link_path E share)).
Proof.
  induction sh as [|kv sh IH]; intros h Hin Hnd Hlen; simpl.
  - by apply elem_of_nil in Hin.
  - rewrite fmap_cons in Hnd. apply NoDup_cons in Hnd as [Hnotin Hnd].
    apply elem_of_cons in Hin as [<-|Hin].
    + rewrite probe_fold_other by done. unfold probe. simpl.
      by apply list_lookup_total_insert_eq.
    + apply IH; [done..|]. unfold probe. by rewrite length_insert.
Qed.

Lemma reconciled_flag s share l :
  Dict.get share (shares s) = Some l →
  registry_ok s →
  mounted share (check_mounted_shares E s).2
  = Some (FS.exists_ (fs s) (PyPath.str (link_path E share))).
Proof.
  intros Hget [Hnd Hlen]. rewrite check_mounted_shares_run. unfold mounted. simpl.
  rewrite Hget. simpl. f_equal.
  apply probe_fold_flag; [by apply dict_get_elem | done |].
  apply (Hlen (share, l)). by apply dict_get_elem.
Qed.
End reconcile.

(** ** [mount_share] followed by [check_mounted_shares] *)

Section mount_reconcile.
Context (E : Env).

(** C3, as the code has it: when the mount command exits with status 0,
    the endpoint is not itself a symbolic link, and the link path is vacant
    or already holds the link to this endpoint, [mount_share] reports
    success and the flag that [check_mounted_shares] then writes says
    whether the endpoint existed when [mount_share] returned; when it did
    not, the file system is as the mount command left it (no link was
    made) and the flag is False. *)
Theorem mount_then_reconcile (share : string) (l : nat) (s : SMBMounter) out err f1 :
  let L := PyPath.str (link_path E share) in
  let Ep := PyPath.str (endpoint E (server s) share) in
  os_run E (mount_cmd (server s) share) (fs s) = (Completed 0 out err, f1) →
  Dict.get share (shares s) = Some l →
  registry_ok s →
  (∀ t, f1 !! Ep ≠ Some (Symlink t)) →
  f1 !! L = None ∨ f1 !! L = Some (Symlink Ep) →
  let r1 := mount_share E share s in
  let r2 := check_mounted_shares E r1.2 in
  r1.1 = Ret true
  ∧ r2.1 = Ret tt
  ∧ mounted share r2.2 = Some (FS.exists_ (fs r1.2) Ep)
  ∧ (FS.exists_ (fs r1.2) Ep = false → fs r1.2 = f1 ∧ mounted share r2.2 = Some false).
Proof.
  intros L Ep Hrun Hget Hok Hplain Hlink r1 r2.
  assert (Hr1 : ∃ s1, r1 = (Ret true, s1) ∧ shares s1 = shares s ∧ heap s1 = heap s
            ∧ FS.exists_ (fs s1) L = FS.exists_ (fs s1) Ep
            ∧ (FS.exists_ (fs s1) Ep = false → fs s1 = f1)).
  { unfold r1. rewrite mount_share_run, Hrun. simpl. fold L Ep.
    assert (Hne : FS.exists_ f1 Ep = true → L ≠ Ep).
    { intros Hep Heq. rewrite <- Heq in Hep, Hplain.
      destruct Hlink as [Hv|Hl]; [|by destruct (Hplain Ep)].
      by rewrite (exists_vacant _ _ Hv) in Hep. }
    destruct (FS.exists_ f1 Ep) eqn:Hep; [specialize (Hne eq_refl)|clear Hne].
    - assert (Hfresh : ∀ f, f !! Ep = f1 !! Ep →
                FS.exists_ (<[L := Symlink Ep]> f) L = FS.exists_ (<[L := Symlink Ep]> f) Ep).
      { intros f Hf. apply exists_link_to_plain; [apply lookup_insert_eq|].
        intros t. rewrite lookup_insert_ne by done. rewrite Hf. apply Hplain. }
      assert (Hstill : ∀ f, f !! Ep = f1 !! Ep →
                FS.exists_ (<[L := Symlink Ep]> f) Ep = true).
      { intros f Hf. rewrite <- Hep. rewrite !exists_plain; [|done|].
        - by rewrite lookup_insert_ne, Hf by done.
        - intros t. rewrite lookup_insert_ne by done. rewrite Hf. apply Hplain. }
      destruct Hlink as [Hv|Hl].
      + rewrite (exists_vacant _ _ Hv), Hv. eexists. split; [done|]. simpl.
        split; [done|]. split; [done|]. split; [by apply Hfresh|].
        rewrite Hstill; done.
      + rewrite (exists_link_to_plain _ _ _ Hl Hplain), Hep, Hl.
        eexists. split; [done|]. simpl. split; [done|]. split; [done|].
        split; [apply Hfresh; by rewrite lookup_delete_ne|].
        rewrite Hstill; [done|]. by rewrite lookup_delete_ne.
    - eexists. split; [done|]. simpl. split; [done|]. split; [done|]. split; [|done].
      rewrite Hep. destruct Hlink as [Hv|Hl].
      + by apply exists_vacant.
      + by rewrite (exists_link_to_plain _ _ _ Hl Hplain). }
  destruct Hr1 as (s1 & Hr1 & Hsh & Hh & HL & Hnone).
  assert (Hflag : mounted share r2.2 = Some (FS.exists_ (fs r1.2) Ep)).
  { unfold r2. rewrite Hr1. simpl. rewrite <- HL. apply (reconciled_flag E s1 share l).
    - by rewrite Hsh.
    - destruct Hok as [Hnd Hlen]. split; rewrite Hsh; [done|]. by rewrite Hh. }
  split; [by rewrite Hr1|]. split.
  { unfold r2. by rewrite check_mounted_shares_run. }
  split; [done|]. intros Hgone. split.
  - rewrite Hr1 in Hgone |- *. by apply Hnone.
  - by rewrite Hflag, Hgone.
Qed.
End mount_reconcile.

(** The stale link of an earlier session, and a mount whose endpoint
    appears: the flag is True. *)
Lemma mount_then_reconcile_witness :
  let E0 := Demo.env Demo.run_mounts_photo in
  let r1 := mount_share E0 "photo" (Demo.with_photo Demo.fs_stale) in
  let r2 := check_mounted_shares E0 r1.2 in
  r1.1 = Ret true ∧ mounted "photo" r2.2 = Some true.
Proof.
  assert (Hok : registry_ok (Demo.with_photo Demo.fs_stale)).
  { split.
    - vm_compute. apply NoDup_singleton.
    - intros kv ->%list_elem_of_singleton. vm_compute. lia. }
  assert (Hplain : ∀ t, (<[Demo.ep "lagrange" "photo" := Directory]> Demo.fs_stale)
                        !! Demo.ep "lagrange" "photo" ≠ Some (Symlink t)).
  { intros t. vm_compute. discriminate. }
  assert (Hlink : (<[Demo.ep "lagrange" "photo" := Directory]> Demo.fs_stale)
                    !! Demo.link_photo = None
                  ∨ (<[Demo.ep "lagrange" "photo" := Directory]> Demo.fs_stale)
                    !! Demo.link_photo = Some (Symlink (Demo.ep "lagrange" "photo"))).
  { right. vm_compute. reflexivity. }
  destruct (mount_then_reconcile (Demo.env Demo.run_mounts_photo) "photo" 4
              (Demo.with_photo Demo.fs_stale) "" ""
              (<[Demo.ep "lagrange" "photo" := Directory]> Demo.fs_stale)
              eq_refl eq_refl Hok Hplain Hlink) as (H1 & _ & H3 & _).
  split; [exact H1|]. rewrite H3. vm_compute. reflexivity.
Defined.

(** C3 as stated fails when the link path holds a live link made for
    another server: the mount command succeeds, the endpoint of the new
    server is not there yet, no link is made, and still the flag is True. *)
Lemma mount_then_reconcile_other_server :
  let E0 := Demo.env Demo.run_ok in
  let s0 := Demo.with_photo Demo.fs_other_live in
  let r1 := mount_share E0 "photo" s0 in
  let r2 := check_mounted_shares E0 r1.2 in
  r1.1 = Ret true
  ∧ FS.exists_ (fs r1.2) (PyPath.str (endpoint E0 (server s0) "photo")) = false
  ∧ mounted "photo" r2.2 = Some true.
Proof. vm_compute. done. Qed.

(** A live link replaced by [mount_share]. *)
Lemma mount_share_replaces_link_witness :
  let E0 := Demo.env Demo.run_ok in
  let r := mount_share E0 "photo" (Demo.with_photo Demo.fs_mounted) in
  r.1 = Ret true
  ∧ fs r.2 !! Demo.link_photo = Some (Symlink (Demo.ep "lagrange" "photo"))
  ∧ past r.2 = [delete Demo.link_photo Demo.fs_mounted; Demo.fs_mounted; Demo.fs_mounted].
Proof.
  pose proof (mount_share_replaces_link (Demo.env Demo.run_ok) "photo"
                (Demo.with_photo Demo.fs_mounted) "" "" Demo.fs_mounted) as H.
  simpl in H. destruct H as (H1 & _ & H3 & H4).
  - reflexivity.
  - vm_compute. reflexivity.
  - right. split; [vm_compute; reflexivity | vm_compute; discriminate].
  - split; [exact H1|]. split; [exact H3|]. rewrite H4. vm_compute. reflexivity.
Defined.

(** C4 as stated fails: the replacement is not atomic.  With a live link in
    place, [mount_share] passes through a file system with nothing at the
    link path. *)
Lemma mount_share_not_atomic :
  ¬ Spec.replaced_atomically (Demo.env Demo.run_ok) "photo" (Demo.with_photo Demo.fs_mounted).
Proof.
  intros [_ H].
  destruct (H (delete Demo.link_photo Demo.fs_mounted)) as [Hv|Hv].
  - apply elem_of_take. exists 0%nat. split; [vm_compute; reflexivity | vm_compute; lia].
  - vm_compute in Hv. discriminate.
  - vm_compute in Hv. discriminate.
Qed.

(** The link left by a mount of another server, now gone. *)
Lemma mount_share_stale_link_witness :
  let E0 := Demo.env Demo.run_ok in
  let r := mount_share E0 "photo" (Demo.with_photo Demo.fs_stale_other) in
  r.1 = Ret false
  ∧ fs r.2 = Demo.fs_stale_other
  ∧ dialogs r.2 = [showerror "Error" "[Errno 17] File exists: /home/ann/SMBLinks/photo"].
Proof.
  pose proof (mount_share_stale_link (Demo.env Demo.run_ok) "photo"
                (Demo.with_photo Demo.fs_stale_other) "" "" Demo.fs_stale_other) as H.
  simpl in H. destruct H as (H1 & H2 & _ & _ & H5).
  - reflexivity.
  - vm_compute. reflexivity.
  - split; [eexists; vm_compute; reflexivity | vm_compute; reflexivity].
  - split; [exact H1|]. split; [exact H2|]. rewrite H5. vm_compute. reflexivity.
Defined.

(** C10 as stated fails for the link a previous session left behind: its
    target is the endpoint of this very share, the mount makes the endpoint
    appear, the link resolves again, and [mount_share] replaces it and
    reports success. *)
Lemma mount_share_stale_link_revived :
  let E0 := Demo.env Demo.run_mounts_photo in
  let s0 := Demo.with_photo Demo.fs_stale in
  let r := mount_share E0 "photo" s0 in
  FS.dangling (fs s0) (PyPath.str (link_path E0 "photo"))
  ∧ succeeded (os_run E0 (mount_cmd (server s0) "photo") (fs s0)).1 = true
  ∧ r.1 = Ret true
  ∧ FS.exists_ (fs r.2) (PyPath.str (link_path E0 "photo")) = true.
Proof.
  split; [split; [eexists; vm_compute; reflexivity | vm_compute; reflexivity]|].
  vm_compute. done.
Qed.

(** The same stale link when the endpoint has not appeared yet: success is
    reported and the link is left as it is. *)
Example mount_share_stale_link_race :
  let E0 := Demo.env Demo.run_ok in
  let s0 := Demo.with_photo Demo.fs_stale in
  let r := mount_share E0 "photo" s0 in
  r.1 = Ret true ∧ fs r.2 = Demo.fs_stale.
Proof. vm_compute. done. Qed.

(** ** Computations that return, computations that keep the registry *)


Lemma returns_ret {A : Type} (a : A) : returns (ret a).
Proof. intros s. by eexists _, _. Qed.

Lemma returns_bind {A B : Type} (m : M A) (f : A → M B) :
  returns m → (∀ a, returns (f a)) → returns (bind m f).
Proof.
  intros Hm Hf s. unfold bind. destruct (Hm s) as (a & s' & ->). apply Hf.
Qed.

Lemma returns_try_except {A : Type} (m : M A) (h : exn → M A) :
  (∀ e, returns (h e)) → returns (try_except m h).
Proof.
  intros Hh s. unfold try_except. destruct (m s) as [[a|e] s'].
  - by eexists _, _.
  - apply Hh.
Qed.

Section frames.
Context {F : Type} (f : SMBMounter → F).

Lemma keeps_ret {A : Type} (a : A) : keeps f (ret a).
Proof. done. Qed.

Lemma keeps_raise {A : Type} e : keeps f (@raise A e).
Proof. done. Qed.

Lemma keeps_gets {A : Type} (g : SMBMounter → A) : keeps f (gets g).
Proof. done. Qed.

Lemma keeps_bind {A B : Type} (m : M A) (k : A → M B) :
  keeps f m → (∀ a, keeps f (k a)) → keeps f (bind m k).
Proof.
  intros Hm Hk s. unfold bind. specialize (Hm s).
  destruct (m s) as [[a|e] s']; simpl in *; [|done].
  rewrite <- Hm. apply Hk.
Qed.

Lemma keeps_try_except {A : Type} (m : M A) (h : exn → M A) :
  keeps f m → (∀ e, keeps f (h e)) → keeps f (try_except m h).
Proof.
  intros Hm Hh s. unfold try_except. specialize (Hm s).
  destruct (m s) as [[a|e] s']; simpl in *; [done|].
  rewrite <- Hm. apply Hh.
Qed.

Lemma keeps_for_each {A : Type} (l : list A) (body : A → M unit) :
  (∀ x, keeps f (body x)) → keeps f (for_each l body).
Proof.
  intros Hb. induction l as [|x l IH]; simpl; [done|].
  apply keeps_bind; [apply Hb | by intros _].
Qed.

Lemma keeps_for_fold {A B : Type} (l : list A) (body : B → A → M B) :
  (∀ acc x, keeps f (body acc x)) → ∀ acc, keeps f (for_fold l body acc).
Proof.
  intros Hb. induction l as [|x l IH]; intros acc; simpl; [done|].
  apply keeps_bind; [apply Hb | apply IH].
Qed.

Lemma keeps_modify (g : SMBMounter → SMBMounter) :
  (∀ s, f (g s) = f s) → keeps f (modify g).
Proof. intros Hg s. apply Hg. Qed.

(** Library calls and the methods that only write to the file system, the
    message boxes and the widgets keep every field those writes leave
    alone. *)
Context `{!Frame f} (E : Env).

Lemma keeps_messagebox d : keeps f (messagebox d).
Proof. intros s. apply frame_dialog. Qed.

Lemma keeps_subprocess_run cmd : keeps f (subprocess_run E cmd).
Proof.
  intros s. unfold subprocess_run.
  destruct (os_run E cmd (fs s)) as [[?|? ? ?] ?]; apply frame_fs.
Qed.

Lemma keeps_unlink p : keeps f (unlink p).
Proof.
  intros s. unfold unlink.
  destruct (fs s !! PyPath.str p) as [[?| |]|]; simpl; by rewrite ?frame_fs.
Qed.

Lemma keeps_symlink_to p t : keeps f (symlink_to p t).
Proof.
  intros s. unfold symlink_to.
  destruct (fs s !! PyPath.str p); simpl; by rewrite ?frame_fs.
Qed.

Lemma keeps_mkdir p : keeps f (mkdir p).
Proof.
  intros s. unfold mkdir. destruct (fs s !! PyPath.str p); [|apply frame_fs].
  by destruct (FS.is_dir (fs s) (PyPath.str p)).
Qed.

Lemma keeps_chmod p : keeps f (chmod p).
Proof. intros s. unfold chmod. by destruct (FS.exists_ (fs s) (PyPath.str p)). Qed.

Lemma keeps_get_check_vars : keeps f get_check_vars.
Proof. intros s. unfold get_check_vars. by destruct (check_vars s). Qed.

Lemma keeps_mount_share share : keeps f (mount_share E share).
Proof.
  intros s. rewrite mount_share_run.
  destruct (os_run E _ (fs s)) as [[e|rc out err] f1];
    [simpl; by rewrite frame_dialog, frame_fs|].
  simpl. repeat case_match; simpl; by rewrite frame_dialog, ?frame_fs.
Qed.

Lemma keeps_unmount_share share : keeps f (unmount_share E share).
Proof.
  apply keeps_try_except.
  - apply keeps_bind; [apply keeps_gets|]. intros l.
    apply keeps_bind; [destruct l; [apply keeps_unlink | apply keeps_ret]|]. intros _.
    apply keeps_bind; [apply keeps_gets|]. intros srv.
    apply keeps_bind; [apply keeps_subprocess_run|]. intros [[rc out] err].
    apply keeps_bind; [|intros _; apply keeps_ret].
    destruct (bool_decide (rc = 0)); [apply keeps_ret | apply keeps_raise].
  - intros e. apply keeps_bind; [apply keeps_messagebox | intros _; apply keeps_ret].
Qed.

Lemma keeps_setup_directories : keeps f (setup_directories E).
Proof.
  apply keeps_bind; [apply keeps_mkdir|]. intros _.
  apply keeps_bind; [apply keeps_mkdir|]. intros _. apply keeps_chmod.
Qed.

Lemma keeps_create_widgets : keeps f create_widgets.
Proof.
  intros s. unfold create_widgets, bind, modify, gets, raise. simpl.
  by rewrite frame_check_vars, frame_main_frame.
Qed.

Lemma keeps_restore_mounted_states ms : keeps f (restore_mounted_states ms).
Proof.
  apply keeps_for_each. intros kv.
  apply keeps_bind; [apply keeps_get_check_vars|]. intros cv.
  destruct (Dict.mem kv.1 cv); [|apply keeps_ret].
  apply keeps_modify. intros s. apply frame_check_vars.
Qed.

Lemma keeps_selected_loop (action : string → M bool) cv :
  (∀ share, keeps f (action share)) →
  keeps f (for_each cv (λ kv : string * bool,
             if kv.2 then (_ <- action kv.1 ;; ret tt) else ret tt)).
Proof.
  intros Ha. apply keeps_for_each. intros kv. destruct kv.2; [|apply keeps_ret].
  apply keeps_bind; [apply Ha | intros _; apply keeps_ret].
Qed.
End frames.

Section keeps.
Context (E : Env).

Lemma keeps_check_mounted_shares : keeps shares (check_mounted_shares E).
Proof. intros s. by rewrite check_mounted_shares_run. Qed.

Lemma check_mounted_shares_heap_size : keeps heap_size (check_mounted_shares E).
Proof.
  intros s. rewrite check_mounted_shares_run. unfold heap_size. simpl.
  apply probe_fold_length.
Qed.

Lemma keeps_detect_shares : keeps shares (detect_shares E).
Proof.
  intros s. rewrite detect_shares_run.
  destruct (os_run E _ (fs s)) as [[e|rc out err] f']; [done|].
  destruct (bool_decide (rc = 0)); [|done].
  destruct (detect_loop (PyStr.split_on "010" out) [] (set_fs f' s)) as (found & h & -> & _).
  by destruct found.
Qed.

Lemma returns_mount_share share : returns (mount_share E share).
Proof. intros s. apply mount_share_returns. Qed.

Lemma returns_unmount_share share : returns (unmount_share E share).
Proof.
  apply returns_try_except. intros e.
  apply returns_bind; [|intros _; apply returns_ret].
  intros s. by eexists _, _.
Qed.
End keeps.

(** ** [mount_selected] and [unmount_selected] *)

Section batch.
Context (E : Env).

(** A loop over the check boxes that calls an action which always returns
    on every ticked name does what the batch of the specification does on
    the ticked names, in order, and drops the results. *)
Lemma selected_loop (action : string → M bool) (many : list string → M (list (string * bool))) :
  (∀ share, returns (action share)) →
  many [] = ret [] →
  (∀ n names, many (n :: names)
              = (r <- action n ;; rs <- many names ;; ret ((n, r) :: rs))%py) →
  ∀ cv s, ∃ rs s1,
    many (selected cv) s = (Ret rs, s1)
    ∧ rs.*1 = selected cv
    ∧ for_each cv (λ kv : string * bool,
          if kv.2 then (_ <- action kv.1 ;; ret tt) else ret tt) s = (Ret tt, s1).
Proof.
  intros Hret Hnil Hcons. induction cv as [|[n b] cv IH]; intros s.
  - exists [], s. change (selected []) with (@nil string). by rewrite Hnil.
  - destruct b.
    + change (selected ((n, true) :: cv)) with (n :: selected cv).
      rewrite Hcons.
      destruct (Hret n s) as (r & s' & Hr).
      destruct (IH s') as (rs & s1 & HM & Hfst & Hloop).
      exists ((n, r) :: rs), s1. split; [|split].
      * unfold bind. rewrite Hr, HM. done.
      * rewrite fmap_cons. simpl. by rewrite Hfst.
      * simpl. unfold bind at 1. unfold bind at 1. rewrite Hr. exact Hloop.
    + change (selected ((n, false) :: cv)) with (selected cv).
      simpl. unfold bind at 1. simpl. apply IH.
Qed.

End batch.

(** Three ticked shares, the second of which cannot be mounted. *)
Example mount_selected_abc :
  let E0 := Demo.env Demo.run_abc in
  (Spec.mountMany E0 ["A"; "B"; "C"] Demo.abc_selected).1
  = Ret [("A", true); ("B", false); ("C", true)]
  ∧ (let s' := (mount_selected E0 Demo.abc_selected).2 in
     mounted "A" s' = Some true ∧ mounted "B" s' = Some false ∧ mounted "C" s' = Some true).
Proof. vm_compute. done. Qed.

(** ** The registry across user actions *)

Section registry.
Context (E : Env).


Lemma discovered_eq s found s' :
  detect_shares E s = (Ret found, s') → discovered E s = found.
Proof. intros H. unfold discovered. by rewrite H. Qed.



Lemma keeps_mount_selected {F} (f : SMBMounter → F) `{!Frame f} :
  keeps f (check_mounted_shares E) → keeps f (mount_selected E).
Proof.
  intros Hc. apply keeps_bind; [by apply keeps_get_check_vars|]. intros cv.
  apply keeps_bind; [|by intros _].
  apply keeps_selected_loop. intros share. by apply keeps_mount_share.
Qed.

Lemma keeps_unmount_selected {F} (f : SMBMounter → F) `{!Frame f} :
  keeps f (check_mounted_shares E) → keeps f (unmount_selected E).
Proof.
  intros Hc. apply keeps_bind; [by apply keeps_get_check_vars|]. intros cv.
  apply keeps_bind; [|by intros _].
  apply keeps_selected_loop. intros share. by apply keeps_unmount_share.
Qed.

(** The comprehension of [refresh_shares] reads and does not write. *)
Lemma save_mounted_states_pure s : (save_mounted_states s).2 = s.
Proof.
  unfold save_mounted_states. unfold bind at 1. unfold gets.
  generalize (@nil (string * bool)) as acc.
  induction (shares s) as [|kv sh IH]; intros acc; simpl; [done|].
  unfold bind at 1. unfold bind at 1. unfold get_check_vars.
  destruct (check_vars s) as [cv|]; [|done].
  destruct (Dict.mem kv.1 cv); simpl.
  - unfold bind at 1. simpl. apply IH.
  - apply IH.
Qed.

(** [connect_to_server] with a server name: the registry is what the
    discovery pass for that server returned. *)
Lemma connect_registry s :
  PyStr.strip (server_entry s) ≠ "" →
  shares (connect_to_server E s).2
  = discovered E (set_server (PyStr.strip (server_entry s)) s).
Proof.
  intros Hne. unfold connect_to_server. unfold bind at 1. unfold gets.
  rewrite bool_decide_eq_false_2 by done.
  unfold bind at 1. unfold modify. unfold bind at 1.
  set (s0 := set_server _ s).
  destruct (detect_shares_returns E s0) as (found & s' & Hd).
  rewrite Hd, (discovered_eq _ _ _ Hd).
  unfold bind at 1. unfold modify.
  assert (Hk : keeps shares (setup_directories E ;; create_widgets ;;
                               check_mounted_shares E)%py).
  { apply keeps_bind; [apply (keeps_setup_directories shares E)|]. intros _.
    apply keeps_bind; [apply (keeps_create_widgets shares)|]. intros _.
    apply keeps_check_mounted_shares. }
  apply (Hk (set_shares found s')).
Qed.

Lemma connect_blank s :
  PyStr.strip (server_entry s) = "" →
  shares (connect_to_server E s).2 = shares s.
Proof.
  intros Hb. unfold connect_to_server. unfold bind at 1. unfold gets.
  by rewrite bool_decide_eq_true_2.
Qed.

(** [refresh_shares]: the registry is what the discovery pass returned,
    unless the comprehension raised before the pass was made. *)
Lemma refresh_registry s :
  shares (refresh_shares E s).2
  = match (save_mounted_states s).1 with
    | Ret _ => discovered E s
    | Raise _ => shares s
    end.
Proof.
  unfold refresh_shares. unfold bind at 1.
  pose proof (save_mounted_states_pure s) as Hp.
  destruct (save_mounted_states s) as [[ms|e] s1]; simpl in *; subst s1; [|done].
  unfold bind at 1.
  destruct (detect_shares_returns E s) as (found & s' & Hd).
  rewrite Hd, (discovered_eq _ _ _ Hd).
  unfold bind at 1. unfold modify.
  assert (Hk : keeps shares (create_widgets ;; restore_mounted_states ms)%py).
  { apply keeps_bind; [apply (keeps_create_widgets shares)|]. intros _.
    apply (keeps_restore_mounted_states shares). }
  apply (Hk (set_shares found s')).
Qed.

Lemma toggle_registry share b s : shares (toggle share b s) = shares s.
Proof.
  unfold toggle. destruct (check_vars s) as [cv|]; [|done].
  by destruct (Dict.mem share cv).
Qed.





End registry.

(** ** The inner dictionaries of the registry

    In every state the user can reach, each share of the registry has its
    own inner dictionary and that dictionary is on the heap: the premise
    [registry_ok] of the properties above always holds. *)

Section cells.
Context {V : Type}.
Implicit Types (d : list (string * V)) (k : string) (v : V).

Lemma dict_set_elem k v d kv : kv ∈ Dict.set k v d → kv = (k, v) ∨ kv ∈ d.
Proof.
  induction d as [|[k' v'] d IH]; simpl.
  - intros ->%list_elem_of_singleton. by left.
  - destruct (decide (k = k')) as [->|Hne].
    + intros [->|H]%elem_of_cons; [by left|]. right. apply elem_of_cons. by right.
    + intros [->|H]%elem_of_cons.
      * right. apply elem_of_cons. by left.
      * destruct (IH H) as [->|H']; [by left|]. right. apply elem_of_cons. by right.
Qed.

Lemma dict_set_values_NoDup k v d :
  NoDup d.*2 → v ∉ d.*2 → NoDup (Dict.set k v d).*2.
Proof.
  induction d as [|[k' v'] d IH]; intros Hnd Hv.
  - apply NoDup_singleton.
  - rewrite fmap_cons in Hnd, Hv. simpl in Hnd, Hv.
    apply NoDup_cons in Hnd as [Hv' Hnd]. apply not_elem_of_cons in Hv as [Hne Hv].
    simpl. destruct (decide (k = k')) as [->|Hk]; rewrite fmap_cons; simpl.
    + by apply NoDup_cons.
    + apply NoDup_cons. split; [|by apply IH].
      intros ([k0 v0] & Heq & Hin)%list_elem_of_fmap. simpl in Heq. subst v0.
      apply dict_set_elem in Hin as [[= _ ->]|Hin]; [done|].
      apply Hv'. apply list_elem_of_fmap. by exists (k0, v').
Qed.
End cells.

Section registry_ok.
Context (E : Env).

Lemma cells_below_mono n m d : (n ≤ m)%nat → cells_below n d → cells_below m d.
Proof. intros Hle Hd kv Hin. specialize (Hd kv Hin). lia. Qed.

Lemma cells_below_fresh n d : cells_below n d → n ∉ d.*2.
Proof.
  intros Hd ([k v] & Heq & Hin)%list_elem_of_fmap. simpl in Heq. subst v.
  specialize (Hd _ Hin). simpl in Hd. lia.
Qed.

(** The loop of [detect_shares] gives every name a new inner dictionary. *)
Lemma detect_loop_cells lines : ∀ acc s,
  cells_below (length (heap s)) acc → NoDup acc.*2 →
  ∃ found h,
    for_fold lines detect_line acc s = (Ret found, set_heap h s)
    ∧ (length (heap s) ≤ length h)%nat
    ∧ cells_below (length h) found
    ∧ NoDup found.*2.
Proof.
  induction lines as [|line lines IH]; intros acc s Hacc Hnd.
  - exists acc, (heap s). split; [by destruct s|]. done.
  - simpl. unfold bind. destruct (is_share_line line) eqn:Hl.
    + destruct (share_line_has_name line Hl) as [tok Htok].
      rewrite (detect_line_share acc line s tok Hl Htok).
      destruct (IH (Dict.set tok (length (heap s)) acc)
                   (set_heap (heap s ++ [false]) s)) as (found & h & Heq & Hle & Hb & Hn).
      * simpl. rewrite length_app. simpl. intros kv Hin.
        apply dict_set_elem in Hin as [->|Hin]; simpl; [lia|].
        specialize (Hacc kv Hin). lia.
      * apply dict_set_values_NoDup; [done|]. by apply cells_below_fresh.
      * exists found, h. split; [exact Heq|]. split; [|done].
        simpl in Hle. rewrite length_app in Hle. simpl in Hle. lia.
    + rewrite (detect_line_other acc line s Hl). by apply IH.
Qed.

Lemma detect_shares_cells s :
  (4 ≤ heap_size s)%nat →
  ∃ found s',
    detect_shares E s = (Ret found, s')
    ∧ (heap_size s ≤ heap_size s')%nat
    ∧ cells_below (heap_size s') found
    ∧ NoDup found.*2.
Proof.
  intros H4. unfold heap_size in *.
  assert (Hdef : ∀ n, (4 ≤ n)%nat → cells_below n default_shares).
  { intros n Hn kv Hin. unfold default_shares in Hin.
    repeat (apply elem_of_cons in Hin as [->|Hin]; [simpl; lia|]).
    by apply elem_of_nil in Hin. }
  assert (Hdnd : NoDup default_shares.*2).
  { apply (bool_decide_unpack (NoDup default_shares.*2)). vm_compute. exact I. }
  rewrite detect_shares_run.
  destruct (os_run E _ (fs s)) as [[e|rc out err] f'].
  { eexists _, _. split; [done|]. simpl. split; [lia|]. split; [by apply Hdef|done]. }
  destruct (bool_decide (rc = 0)).
  2:{ eexists _, _. split; [done|]. simpl. split; [lia|]. split; [by apply Hdef|done]. }
  destruct (detect_loop_cells (PyStr.split_on "010" out) [] (set_fs f' s))
    as (found & h & -> & Hle & Hb & Hn).
  { by intros kv ?%elem_of_nil. }
  { apply NoDup_nil_2. }
  simpl in Hle. destruct found as [|kv found].
  - eexists _, _. split; [done|]. simpl. split; [lia|]. split; [apply Hdef; lia|done].
  - eexists _, _. split; [done|]. simpl. done.
Qed.

Lemma reachable_ok_same s s' :
  shares s' = shares s → heap_size s' = heap_size s → reachable_ok s → reachable_ok s'.
Proof.
  unfold reachable_ok, registry_ok, heap_size. intros -> -> H. exact H.
Qed.

Lemma reachable_ok_discovered s found s' s'' :
  detect_shares E s = (Ret found, s') →
  (4 ≤ heap_size s)%nat →
  shares s'' = found → heap_size s'' = heap_size s' →
  reachable_ok s''.
Proof.
  intros Hd H4 Hsh Hh.
  destruct (detect_shares_cells s H4) as (found' & t & Hd' & Hle & Hb & Hn).
  rewrite Hd in Hd'. injection Hd' as <- <-.
  unfold reachable_ok, registry_ok, heap_size in *. rewrite Hsh, Hh.
  split; [split; [done|exact Hb]|lia].
Qed.

Lemma connect_heap_size s :
  PyStr.strip (server_entry s) ≠ "" →
  ∃ found s',
    detect_shares E (set_server (PyStr.strip (server_entry s)) s) = (Ret found, s')
    ∧ shares (connect_to_server E s).2 = found
    ∧ heap_size (connect_to_server E s).2 = heap_size s'.
Proof.
  intros Hne.
  destruct (detect_shares_returns E (set_server (PyStr.strip (server_entry s)) s))
    as (found & s' & Hd).
  exists found, s'. split; [done|]. split.
  { rewrite connect_registry by done. by apply discovered_eq in Hd. }
  unfold connect_to_server. unfold bind at 1. unfold gets.
  rewrite bool_decide_eq_false_2 by done.
  unfold bind at 1. unfold modify. unfold bind at 1. rewrite Hd.
  unfold bind at 1. unfold modify.
  assert (Hk : keeps heap_size (setup_directories E ;; create_widgets ;;
                                check_mounted_shares E)%py).
  { apply keeps_bind; [apply (keeps_setup_directories heap_size E)|]. intros _.
    apply keeps_bind; [apply (keeps_create_widgets heap_size)|]. intros _.
    apply check_mounted_shares_heap_size. }
  apply (Hk (set_shares found s')).
Qed.

Lemma refresh_heap_size s ms :
  (save_mounted_states s).1 = Ret ms →
  ∃ found s',
    detect_shares E s = (Ret found, s')
    ∧ shares (refresh_shares E s).2 = found
    ∧ heap_size (refresh_shares E s).2 = heap_size s'.
Proof.
  intros Hsave.
  destruct (detect_shares_returns E s) as (found & s' & Hd).
  exists found, s'. split; [done|]. split.
  { rewrite refresh_registry, Hsave. by apply discovered_eq in Hd. }
  unfold refresh_shares. unfold bind at 1.
  pose proof (save_mounted_states_pure s) as Hp.
  destruct (save_mounted_states s) as [[ms'|e] s1]; simpl in *; subst s1; [|done].
  unfold bind at 1. rewrite Hd. unfold bind at 1. unfold modify.
  assert (Hk : keeps heap_size (create_widgets ;; restore_mounted_states ms')%py).
  { apply keeps_bind; [apply (keeps_create_widgets heap_size)|]. intros _.
    apply (keeps_restore_mounted_states heap_size). }
  apply (Hk (set_shares found s')).
Qed.

Lemma refresh_raised_same s e :
  (save_mounted_states s).1 = Raise e → (refresh_shares E s).2 = s.
Proof.
  intros Hsave. unfold refresh_shares. unfold bind at 1.
  pose proof (save_mounted_states_pure s) as Hp.
  destruct (save_mounted_states s) as [[ms'|e'] s1]; simpl in *; by subst s1.
Qed.

Lemma step_reachable_ok o s : reachable_ok s → reachable_ok (step E o s).
Proof.
  intros Hok. pose proof Hok as [_ H4]. destruct o; simpl.
  - by apply (reachable_ok_same s).
  - apply (reachable_ok_same s); [apply toggle_registry| |done].
    unfold toggle. destruct (check_vars s) as [cv|]; [|done].
    by destruct (Dict.mem share cv).
  - destruct (decide (PyStr.strip (server_entry s) = "")) as [Hb|Hne].
    + apply (reachable_ok_same s); [by apply connect_blank| |done].
      unfold connect_to_server. unfold bind at 1. unfold gets.
      by rewrite bool_decide_eq_true_2.
    + destruct (connect_heap_size s Hne) as (found & s' & Hd & Hsh & Hh).
      by apply (reachable_ok_discovered _ found s' _ Hd).
  - destruct (save_mounted_states s).1 as [ms|e] eqn:Hsave.
    + destruct (refresh_heap_size s ms Hsave) as (found & s' & Hd & Hsh & Hh).
      by apply (reachable_ok_discovered _ found s' _ Hd).
    + by rewrite (refresh_raised_same s e Hsave).
  - apply (reachable_ok_same s); [| |done].
    + apply (keeps_mount_selected E shares), keeps_check_mounted_shares.
    + apply (keeps_mount_selected E heap_size), check_mounted_shares_heap_size.
  - apply (reachable_ok_same s); [| |done].
    + apply (keeps_unmount_selected E shares), keeps_check_mounted_shares.
    + apply (keeps_unmount_selected E heap_size), check_mounted_shares_heap_size.
Qed.

(** Whatever the user has done since the start, the registry is well
    formed. *)
Lemma reachable_registry_ok (fs0 : gmap string node) (ops : list op) :
  registry_ok (run E ops (init fs0)).
Proof.
  assert (H : ∀ s, reachable_ok s → reachable_ok (run E ops s)).
  { induction ops as [|o ops IH]; intros s Hs; [done|].
    simpl. apply IH. by apply step_reachable_ok. }
  apply H. split; [split|].
  - apply NoDup_nil_2.
  - by intros kv ?%elem_of_nil.
  - unfold heap_size. simpl. lia.
Qed.
End registry_ok.

(** ** The endpoint of a share *)

Section endpoint_facts.

Lemma string_app_cons a s t : String a s +:+ t = String a (s +:+ t).
Proof. done. Qed.

Lemma string_app_nil_l t : "" +:+ t = t.
Proof. done. Qed.

Lemma contains_char_app c s t :
  PyStr.contains (String c "") (s +:+ t)
  = PyStr.contains (String c "") s || PyStr.contains (String c "") t.
Proof.
  induction s as [|a s IH].
  - rewrite string_app_nil_l. simpl. by destruct t.
  - rewrite string_app_cons. simpl. rewrite IH.
    destruct (decide (c = a)); simpl; [done|].
    by destruct (PyStr.contains (String c "") s).
Qed.

Lemma contains_char_cons c a s :
  PyStr.contains (String c "") (String a s)
  = bool_decide (c = a) || PyStr.contains (String c "") s.
Proof.
  simpl. destruct (decide (c = a)) as [->|Hne].
  - by rewrite bool_decide_eq_true_2.
  - by rewrite bool_decide_eq_false_2.
Qed.

(** A string without the separator is one field. *)
Lemma split_on_none c s :
  PyStr.contains (String c "") s = false → PyStr.split_on c s = [s].
Proof.
  induction s as [|a s IH]; [done|].
  rewrite contains_char_cons. intros [Ha Hs]%orb_false_iff.
  apply bool_decide_eq_false in Ha. simpl.
  destruct (decide (a = c)) as [->|_]; [done|]. by rewrite IH.
Qed.

(** The first field ends at the first separator. *)
Lemma split_on_first c s t :
  PyStr.contains (String c "") s = false →
  PyStr.split_on c (s +:+ String c t) = s :: PyStr.split_on c t.
Proof.
  induction s as [|a s IH].
  - intros _. rewrite string_app_nil_l. simpl. by destruct (decide (c = c)).
  - rewrite contains_char_cons. intros [Ha Hs]%orb_false_iff.
    apply bool_decide_eq_false in Ha. rewrite string_app_cons. simpl.
    destruct (decide (a = c)) as [->|_]; [done|]. by rewrite IH.
Qed.

(** Decimal numerals: digits only, and at least one. *)
Lemma uint_no_slash d : PyStr.contains "/" (NilEmpty.string_of_uint d) = false.
Proof. induction d; simpl; [done|by rewrite IHd..]. Qed.

Lemma uint_keep d : d ≠ Decimal.Nil → PyPath.keep_part (NilEmpty.string_of_uint d) = true.
Proof. destruct d; done. Qed.

Lemma of_N_no_slash n : PyStr.contains "/" (PyStr.of_N n) = false.
Proof. apply uint_no_slash. Qed.

Lemma of_N_keep n : PyPath.keep_part (PyStr.of_N n) = true.
Proof.
  apply uint_keep. destruct n as [|p]; [done|].
  apply DecimalPos.Unsigned.to_uint_nonnil.
Qed.

End endpoint_facts.

Section endpoint.
Context (E : Env).

(** C9, as the code has it: line 220 is a total expression; for every
    server and share name without a slash, the empty names included, the
    path it builds is, character for character,
    [/run/user/<uid>/gvfs/smb-share:server=<server>,share=<share>]. *)
Theorem endpoint_path (srv share : string) :
  PyStr.contains "/" srv = false →
  PyStr.contains "/" share = false →
  PyPath.str (endpoint E srv share)
  = "/run/user/" +:+ PyStr.of_N (getuid E) +:+ "/gvfs/smb-share:server="
    +:+ srv +:+ ",share=" +:+ share.
Proof.
  intros Hsrv Hshare. unfold endpoint.
  set (u := PyStr.of_N (getuid E)).
  set (last := "smb-share:server=" +:+ srv +:+ ",share=" +:+ share).
  assert (Hlast : PyStr.contains "/" last = false).
  { unfold last. rewrite !contains_char_app, Hsrv, Hshare. done. }
  assert (Hs : "/run/user/" +:+ u +:+ "/gvfs/smb-share:server=" +:+ srv
               +:+ ",share=" +:+ share
               = "" +:+ String "/" ("run" +:+ String "/" ("user" +:+ String "/"
                   (u +:+ String "/" ("gvfs" +:+ String "/" last))))).
  { unfold last. clear. generalize (srv +:+ ",share=" +:+ share). intros w.
    by rewrite !string_app_cons, !string_app_nil_l. }
  rewrite Hs. unfold PyPath.Path, PyPath.str, PyPath.parts_of. simpl PyPath.root.
  rewrite (split_on_first "/" "") by done.
  rewrite (split_on_first "/" "run") by done.
  rewrite (split_on_first "/" "user") by done.
  rewrite (split_on_first "/" u) by apply of_N_no_slash.
  rewrite (split_on_first "/" "gvfs") by done.
  rewrite (split_on_none "/" last) by done.
  pose proof (of_N_keep (getuid E)) as Hku. fold u in Hku.
  simpl. rewrite Hku. simpl.
  by rewrite !string_app_cons, !string_app_nil_l.
Qed.
End endpoint.

(** The endpoint for an empty share name. *)
Lemma endpoint_path_witness :
  PyPath.str (endpoint (Demo.env Demo.run_ok) "lagrange" "")
  = "/run/user/1000/gvfs/smb-share:server=lagrange,share=".
Proof.
  exact (endpoint_path (Demo.env Demo.run_ok) "lagrange" "" eq_refl eq_refl).
Defined.

(** C9 as stated fails: the specification's resolver rejects an empty share
    name, line 220 builds a path for it. *)
Lemma endpoint_accepts_empty_share :
  let E0 := Demo.env Demo.run_ok in
  Spec.resolve (getuid E0) "lagrange" "" = Spec.InvalidArgument
  ∧ Spec.Resolved (PyPath.str (endpoint E0 "lagrange" ""))
    ≠ Spec.resolve (getuid E0) "lagrange" "".
Proof. split; [reflexivity | vm_compute; discriminate]. Qed.

(** ** [refresh_shares] *)

Section refresh.
Context (E : Env).

(** [create_widgets] raises, so [refresh_shares] never reaches the loop
    that would restore the saved states. *)
Lemma refresh_shares_raises s : ∃ e, (refresh_shares E s).1 = Raise e.
Proof.
  unfold refresh_shares. unfold bind at 1.
  destruct (save_mounted_states s) as [[ms|e] s1]; [|by exists e].
  unfold bind at 1.
  destruct (detect_shares_returns E s1) as (found & s' & ->).
  by exists (AttributeError "unmount_all").
Qed.
End refresh.

(** C6 on the code: the registry holds A (mounted) and B, the server lists
    A and C.  The specification's function gives A True and C False.
    [refresh_shares] leaves A False and C False in the registry and in the
    check boxes, and ends by raising AttributeError. *)
Theorem refresh_shares_loses_flags :
  let E0 := Demo.env (Demo.run_lists Demo.listing_ac) in
  let r := refresh_shares E0 Demo.registry_ab in
  flags Demo.registry_ab = [("A", true); ("B", false)]
  ∧ Spec.preserveMountedAcrossRefresh (flags Demo.registry_ab) ["A"; "C"]
    = [("A", true); ("C", false)]
  ∧ flags r.2 = [("A", false); ("C", false)]
  ∧ check_vars r.2 = Some [("A", false); ("C", false)]
  ∧ r.1 = Raise (AttributeError "unmount_all").
Proof. vm_compute. done. Qed.

(** ** Small checks of the string and path functions *)

Example split_on_ex :
  PyStr.split_on "010" ("photo Disk" +:+ nl +:+ "IPC$ IPC") = ["photo Disk"; "IPC$ IPC"].
Proof. reflexivity. Qed.

Example split_ex :
  PyStr.split (String "009" "photo           Disk      Photos ") = ["photo"; "Disk"; "Photos"].
Proof. reflexivity. Qed.

Example strip_ex : PyStr.strip "  lagrange  " = "lagrange".
Proof. reflexivity. Qed.

Example of_N_ex : PyStr.of_N 1000 = "1000" ∧ PyStr.of_N 0 = "0".
Proof. split; reflexivity. Qed.

Example Path_ex :
  PyPath.str (PyPath.truediv (PyPath.Path "/home/ann//") "SMBLinks") = "/home/ann/SMBLinks"
  ∧ PyPath.str (PyPath.truediv (PyPath.Path "/home/ann") "/etc") = "/etc"
  ∧ PyPath.str (PyPath.truediv (PyPath.Path "/home/ann") ".") = "/home/ann".
Proof. repeat split; reflexivity. Qed.

(** Connecting runs the discovery pass and builds the check boxes, then
    stops at the missing [unmount_all]. *)
Example connect_ex :
  let r := connect_to_server (Demo.env (Demo.run_lists Demo.listing_lagrange)) (init ∅) in
  r.1 = Raise (AttributeError "unmount_all")
  ∧ Dict.keys (shares r.2) = ["photo"; "music"]
  ∧ check_vars r.2 = Some [("photo", false); ("music", false)].
Proof. vm_compute. done. Qed.

(** * Further properties of the methods *)

(** ** [setup_directories] *)

Section setup.
Context (E : Env).
Implicit Types (f : gmap string node) (p q : string).

Lemma stat_fuel_insert_vacant n f p q v x :
  f !! q = None → FS.stat_fuel n f p = Some x → FS.stat_fuel n (<[q := v]> f) p = Some x.
Proof.
  intros Hq. revert p. induction n as [|n IH]; intros p; simpl.
  - destruct (decide (p = q)) as [->|Hne]; [by rewrite Hq|].
    by rewrite lookup_insert_ne.
  - destruct (decide (p = q)) as [->|Hne]; [by rewrite Hq|].
    rewrite lookup_insert_ne by done.
    destruct (f !! p) as [[t| |]|]; try done. apply IH.
Qed.

Lemma is_dir_insert_vacant f p q v :
  f !! q = None → FS.is_dir f p = true → FS.is_dir (<[q := v]> f) p = true.
Proof.
  unfold FS.is_dir, FS.stat. intros Hq H%bool_decide_eq_true.
  apply bool_decide_eq_true. by apply stat_fuel_insert_vacant.
Qed.

Lemma is_dir_insert_self f p : FS.is_dir (<[p := Directory]> f) p = true.
Proof.
  unfold FS.is_dir, FS.stat, FS.MAXSYMLINKS. simpl. by rewrite lookup_insert_eq.
Qed.

Lemma is_dir_exists f p : FS.is_dir f p = true → FS.exists_ f p = true.
Proof.
  unfold FS.is_dir, FS.exists_. intros H%bool_decide_eq_true.
  apply bool_decide_eq_true. rewrite H. eauto.
Qed.

Lemma is_dir_occupied f p : FS.is_dir f p = true → is_Some (f !! p).
Proof. intros H. by apply exists_is_Some, is_dir_exists. Qed.

(** One [mkdir(parents=True, exist_ok=True)], case by case. *)
Lemma mkdir_run pth s :
  let p := PyPath.str pth in
  mkdir pth s =
    match fs s !! p with
    | None => (Ret tt, set_fs (<[p := Directory]> (fs s)) s)
    | Some _ => if FS.is_dir (fs s) p then (Ret tt, s)
                else (Raise (FileExistsError p), s)
    end.
Proof. done. Qed.

(** The run of [setup_directories] on the file system modelled here, case
    by case: it returns with both directories in place and every other
    path as it was, or it stops at the first of the two paths that holds
    something other than a directory. *)
Lemma setup_directories_cases (s : SMBMounter) :
  let S := PyPath.str (smb_links E) in
  let C := PyPath.str (credentials_dir E) in
  let r := setup_directories E s in
  match r.1 with
  | Ret _ =>
      FS.is_dir (fs r.2) S = true ∧ FS.is_dir (fs r.2) C = true
      ∧ ∀ p, p ≠ S → p ≠ C → fs r.2 !! p = fs s !! p
  | Raise e =>
      (e = FileExistsError S ∧ r.2 = s
       ∧ is_Some (fs s !! S) ∧ FS.is_dir (fs s) S = false)
      ∨ (e = FileExistsError C ∧ FS.is_dir (fs r.2) S = true
         ∧ is_Some (fs r.2 !! C) ∧ FS.is_dir (fs r.2) C = false
         ∧ ∀ p, p ≠ S → fs r.2 !! p = fs s !! p)
  end.
Proof.
  intros S C r. unfold r, setup_directories, bind, mkdir, chmod. fold S C.
  destruct (fs s !! S) as [n|] eqn:HS.
  - destruct (FS.is_dir (fs s) S) eqn:HdS; [|simpl; left; rewrite ?HS; eauto].
    destruct (fs s !! C) as [n'|] eqn:HC.
    + destruct (FS.is_dir (fs s) C) eqn:HdC.
      * rewrite (is_dir_exists _ _ HdC). simpl. done.
      * simpl. right. rewrite ?HC. eauto 10.
    + simpl. rewrite (is_dir_exists _ _ (is_dir_insert_self (fs s) C)). simpl.
      split; [by apply is_dir_insert_vacant|]. split; [apply is_dir_insert_self|].
      intros p _ Hp. by rewrite lookup_insert_ne.
  - simpl. pose proof (is_dir_insert_self (fs s) S) as HdS.
    assert (Hsame : ∀ p, p ≠ S → <[S := Directory]> (fs s) !! p = fs s !! p).
    { intros p Hp. by rewrite lookup_insert_ne. }
    destruct (<[S := Directory]> (fs s) !! C) as [n'|] eqn:HC.
    + destruct (FS.is_dir (<[S := Directory]> (fs s)) C) eqn:HdC.
      * simpl. rewrite (is_dir_exists _ _ HdC). simpl. split; [done|]. split; [done|].
        intros p Hp _. by apply Hsame.
      * simpl. right. rewrite ?HC. eauto 10.
    + simpl.
      rewrite (is_dir_exists _ _ (is_dir_insert_self (<[S := Directory]> (fs s)) C)).
      simpl. split; [by apply is_dir_insert_vacant|]. split; [apply is_dir_insert_self|].
      intros p Hp HpC. rewrite lookup_insert_ne by done. by apply Hsame.
Qed.

(** X1: when [setup_directories] returns, the links directory and the
    credentials directory are both in place and every other path is as it
    was; when something other than a directory sits at the links path, it
    raises FileExistsError for that path and changes nothing. *)
Theorem setup_directories_post (s : SMBMounter) :
  let S := PyPath.str (smb_links E) in
  let C := PyPath.str (credentials_dir E) in
  let r := setup_directories E s in
  (r.1 = Ret tt →
   FS.is_dir (fs r.2) S = true ∧ FS.is_dir (fs r.2) C = true
   ∧ ∀ p, p ≠ S → p ≠ C → fs r.2 !! p = fs s !! p)
  ∧ (is_Some (fs s !! S) → FS.is_dir (fs s) S = false →
     r = (Raise (FileExistsError S), s)).
Proof.
  intros S C r. split.
  - intros Hret. pose proof (setup_directories_cases s) as H. simpl in H.
    fold S C r in H. by rewrite Hret in H.
  - intros [n Hn] Hd. unfold r, setup_directories. unfold bind at 1.
    rewrite mkdir_run. fold S. by rewrite Hn, Hd.
Qed.

(** X2: [setup_directories] is idempotent: once it has returned, running it
    again returns and changes nothing. *)
Theorem setup_directories_idempotent (s : SMBMounter) :
  (setup_directories E s).1 = Ret tt →
  setup_directories E (setup_directories E s).2 = (Ret tt, (setup_directories E s).2).
Proof.
  intros Hret. pose proof (setup_directories_cases s) as H. simpl in H.
  rewrite Hret in H. destruct H as (HS & HC & _).
  set (s1 := (setup_directories E s).2) in *.
  unfold setup_directories. unfold bind at 1. rewrite mkdir_run.
  destruct (is_dir_occupied _ _ HS) as [n ->]. rewrite HS.
  unfold bind at 1. rewrite mkdir_run.
  destruct (is_dir_occupied _ _ HC) as [n' ->]. rewrite HC.
  unfold chmod. by rewrite (is_dir_exists _ _ HC).
Qed.
End setup.

(** On an empty file system both directories are made. *)
Lemma setup_directories_post_witness :
  let E0 := Demo.env Demo.run_ok in
  let r := setup_directories E0 (init ∅) in
  FS.is_dir (fs r.2) "/home/ann/SMBLinks" = true
  ∧ FS.is_dir (fs r.2) "/home/ann/.credentials" = true.
Proof.
  intros E0 r.
  assert (Hret : r.1 = Ret tt) by (vm_compute; reflexivity).
  destruct (proj1 (setup_directories_post E0 (init ∅)) Hret) as (H1 & H2 & _).
  split; [exact H1 | exact H2].
Defined.

(** On an empty file system both directories are made, and a second run
    finds them. *)
Lemma setup_directories_idempotent_witness :
  let E0 := Demo.env Demo.run_ok in
  let s1 := (setup_directories E0 (init ∅)).2 in
  setup_directories E0 s1 = (Ret tt, s1).
Proof.
  exact (setup_directories_idempotent (Demo.env Demo.run_ok) (init ∅) eq_refl).
Defined.

Example setup_directories_file_in_the_way :
  let E0 := Demo.env Demo.run_ok in
  (setup_directories E0 (init Demo2.fs_file_at_links)).1
  = Raise (FileExistsError "/home/ann/SMBLinks").
Proof. vm_compute. reflexivity. Qed.

(** ** [detect_shares] and the flags *)

Section detect_flags.
Context (E : Env).

(** The loop of [detect_shares] only appends inner dictionaries holding
    False, and gives each name it adds one of them. *)
Lemma detect_loop_fresh lines : ∀ acc s,
  ∃ found k,
    for_fold lines detect_line acc s
    = (Ret found, set_heap (heap s ++ replicate k false) s)
    ∧ ∀ kv, kv ∈ found →
        kv ∈ acc ∨ (length (heap s) ≤ kv.2 < length (heap s) + k)%nat.
Proof.
  induction lines as [|line lines IH]; intros acc s.
  - exists acc, 0%nat. simpl. rewrite app_nil_r. split; [by destruct s|]. by left.
  - simpl. unfold bind. destruct (is_share_line line) eqn:Hl.
    + destruct (share_line_has_name line Hl) as [tok Htok].
      rewrite (detect_line_share acc line s tok Hl Htok).
      destruct (IH (Dict.set tok (length (heap s)) acc)
                   (set_heap (heap s ++ [false]) s)) as (found & k & Heq & Hin).
      exists found, (S k). split.
      * rewrite Heq. simpl. by rewrite <- app_assoc.
      * intros kv Hkv. destruct (Hin kv Hkv) as [Hset|Hrange].
        -- apply dict_set_elem in Hset as [->|Hacc]; [|by left].
           right. simpl. lia.
        -- right. simpl in Hrange. rewrite length_app in Hrange. simpl in Hrange. lia.
    + rewrite (detect_line_other acc line s Hl). apply IH.
Qed.

(** X3: discovery never changes the flag of an inner dictionary that
    exists already; it returns either the default shares or shares that all
    start with "mounted" False. *)
Theorem detect_shares_fresh_flags (s : SMBMounter) :
  ∃ found s',
    detect_shares E s = (Ret found, s')
    ∧ (∀ l, (l < length (heap s))%nat → heap s' !! l = heap s !! l)
    ∧ (found = default_shares ∨ ∀ kv, kv ∈ found → heap s' !! kv.2 = Some false).
Proof.
  rewrite detect_shares_run.
  destruct (os_run E _ (fs s)) as [[e|rc out err] f'].
  { eexists _, _. split; [done|]. split; [done|by left]. }
  destruct (bool_decide (rc = 0)).
  2:{ eexists _, _. split; [done|]. split; [done|by left]. }
  destruct (detect_loop_fresh (PyStr.split_on "010" out) [] (set_fs f' s))
    as (found & k & -> & Hin).
  simpl in Hin.
  assert (Hold : ∀ l, (l < length (heap s))%nat →
                   (heap s ++ replicate k false) !! l = heap s !! l).
  { intros l Hl. by apply lookup_app_l. }
  destruct found as [|kv found].
  - eexists _, _. split; [done|]. split; [done|by left].
  - eexists _, _. split; [done|]. split; [done|]. right. intros kv' Hkv.
    destruct (Hin kv' Hkv) as [[]%elem_of_nil|Hrange]. simpl.
    rewrite lookup_app_r by lia. apply lookup_replicate_2. lia.
Qed.

(** X4: when the listing command fails, the registry returned is the
    default shares with the very inner dictionaries of [self.default_shares]
    (a shallow copy): no flag is reset, each default share shows the flag
    last written to it. *)
Theorem detect_shares_fallback_keeps_flags (s : SMBMounter) :
  succeeded (os_run E (listing_cmd (server s)) (fs s)).1 = false →
  let r := detect_shares E s in
  r.1 = Ret default_shares
  ∧ heap r.2 = heap s
  ∧ flags (set_shares default_shares r.2)
    = (λ kv : string * nat, (kv.1, heap s !!! kv.2)) <$> default_shares.
Proof.
  intros Hfail r. unfold r. rewrite detect_shares_run.
  destruct (os_run E _ (fs s)) as [[e|rc out err] f']; [done|].
  simpl in Hfail. destruct rc; [done| |]; done.
Qed.
End detect_flags.

(** The listing command is missing; photo was found mounted before. *)
Lemma detect_shares_fallback_keeps_flags_witness :
  let r := detect_shares (Demo.env Demo2.run_missing) Demo2.fallback_photo_mounted in
  r.1 = Ret default_shares
  ∧ flags (set_shares default_shares r.2)
    = [("photo", true); ("music", false); ("video", false); ("commun", false)].
Proof.
  destruct (detect_shares_fallback_keeps_flags (Demo.env Demo2.run_missing)
              Demo2.fallback_photo_mounted eq_refl) as (H1 & _ & H3).
  split; [exact H1|]. rewrite H3. vm_compute. reflexivity.
Defined.

(** ** [connect_to_server] *)

Section blank.

Lemma lstrip_all_blank s : all_blank s = true → PyStr.lstrip s = "".
Proof.
  induction s as [|a s IH]; simpl; [done|].
  intros [Ha Hs]%andb_true_iff. rewrite Ha. by apply IH.
Qed.

Lemma lstrip_not_blank s : all_blank s = false → PyStr.lstrip s ≠ "".
Proof.
  induction s as [|a s IH]; simpl; [done|].
  destruct (PyStr.isspace a); simpl; [apply IH | done].
Qed.

Lemma lstrip_keeps_not_blank s : all_blank s = false → all_blank (PyStr.lstrip s) = false.
Proof.
  induction s as [|a s IH]; simpl; [done|].
  destruct (PyStr.isspace a) eqn:Ha; simpl; [apply IH | by rewrite Ha].
Qed.

Lemma rev_app_all_blank s1 s2 :
  all_blank (String.rev_app s1 s2) = all_blank s1 && all_blank s2.
Proof.
  revert s2. induction s1 as [|a s1 IH]; intros s2; simpl; [done|].
  rewrite IH. simpl. destruct (PyStr.isspace a), (all_blank s1); done.
Qed.

Lemma rev_app_empty s1 s2 : String.rev_app s1 s2 = "" → s1 = "" ∧ s2 = "".
Proof.
  revert s2. induction s1 as [|a s1 IH]; intros s2; simpl; [done|].
  intros H. by destruct (IH _ H) as [_ ?].
Qed.

(** [strip] gives the empty string exactly on blank strings. *)
Lemma strip_all_blank s : all_blank s = true → PyStr.strip s = "".
Proof. intros H. unfold PyStr.strip. by rewrite (lstrip_all_blank s H). Qed.

Lemma strip_not_blank s : all_blank s = false → PyStr.strip s ≠ "".
Proof.
  intros H Hs. unfold PyStr.strip, PyStr.rstrip, String.rev in Hs.
  apply rev_app_empty in Hs as [Hs _].
  apply (lstrip_not_blank (String.rev_app (PyStr.lstrip s) "")); [|done].
  rewrite rev_app_all_blank. by rewrite lstrip_keeps_not_blank.
Qed.
End blank.

Section connect.
Context (E : Env).

(** X5: a server entry that is empty or holds only white space is
    rejected: [connect_to_server] shows one error box and changes nothing
    else; no command is run. *)
Theorem connect_to_server_blank_entry (s : SMBMounter) :
  all_blank (server_entry s) = true →
  connect_to_server E s
  = (Ret tt, add_dialog (showerror "Error" "Please enter a server name") s).
Proof.
  intros Hb. unfold connect_to_server. unfold bind at 1. unfold gets.
  by rewrite (strip_all_blank _ Hb).
Qed.

Lemma keeps_server_detect_shares : keeps server (detect_shares E).
Proof.
  intros s. rewrite detect_shares_run.
  destruct (os_run E _ (fs s)) as [[e|rc out err] f']; [done|].
  destruct (bool_decide (rc = 0)); [|done].
  destruct (detect_loop (PyStr.split_on "010" out) [] (set_fs f' s)) as (found & h & -> & _).
  by destruct found.
Qed.

(** The run of [connect_to_server] on an entry that is not blank. *)
Lemma connect_to_server_run s :
  PyStr.strip (server_entry s) ≠ "" →
  let d := detect_shares E (set_server (PyStr.strip (server_entry s)) s) in
  let s2 := set_shares (discovered E (set_server (PyStr.strip (server_entry s)) s)) d.2 in
  connect_to_server E s =
    match setup_directories E s2 with
    | (Ret _, s3) =>
        (Raise (AttributeError "unmount_all"),
         set_check_vars (Some (unticked (shares s3))) (set_main_frame true s3))
    | (Raise e, s3) => (Raise e, s3)
    end.
Proof.
  intros Hne d s2. unfold connect_to_server. unfold bind at 1. unfold gets.
  rewrite bool_decide_eq_false_2 by done.
  unfold bind at 1. unfold modify. unfold bind at 1. unfold s2, d.
  destruct (detect_shares_returns E (set_server (PyStr.strip (server_entry s)) s))
    as (found & s1 & Hd).
  rewrite (discovered_eq _ _ _ _ Hd), Hd. simpl.
  unfold bind at 1. unfold modify. unfold bind at 1.
  destruct (setup_directories E (set_shares found s1)) as [[[]|e] s3]; done.
Qed.

(** X6: with an entry that is not blank, [connect_to_server] takes the
    stripped entry as the server and always stops with an exception before
    [check_mounted_shares]: the flags stay as discovery left them.  When
    [setup_directories] returns, the exception is the AttributeError of
    [create_widgets], raised once the check boxes have been rebuilt, none
    set, for the names of the new registry. *)
Theorem connect_to_server_stops (s : SMBMounter) :
  all_blank (server_entry s) = false →
  let new_server := PyStr.strip (server_entry s) in
  let d := detect_shares E (set_server new_server s) in
  let s2 := set_shares (discovered E (set_server new_server s)) d.2 in
  let r := connect_to_server E s in
  new_server ≠ ""
  ∧ server r.2 = new_server
  ∧ heap r.2 = heap d.2
  ∧ (∃ e, r.1 = Raise e)
  ∧ ((setup_directories E s2).1 = Ret tt →
     r.1 = Raise (AttributeError "unmount_all")
     ∧ check_vars r.2 = Some (unticked (shares r.2))).
Proof.
  intros Hnb new_server d s2 r.
  pose proof (strip_not_blank _ Hnb) as Hne. split; [done|].
  unfold r. rewrite connect_to_server_run by done. fold new_server d s2.
  pose proof (keeps_setup_directories server E s2) as Hsrv.
  pose proof (keeps_setup_directories heap E s2) as Hheap.
  assert (Hs2 : server s2 = new_server).
  { unfold s2. simpl. unfold d. by rewrite keeps_server_detect_shares. }
  destruct (setup_directories E s2) as [[[]|e] s3]; simpl in *.
  - split; [congruence|]. split; [done|]. split; [by eexists|]. done.
  - split; [congruence|]. split; [done|]. split; [by eexists|]. done.
Qed.
End connect.

(** Three blanks in the server entry. *)
Lemma connect_to_server_blank_entry_witness :
  connect_to_server (Demo.env Demo.run_ok) Demo2.blank_entry
  = (Ret tt, add_dialog (showerror "Error" "Please enter a server name") Demo2.blank_entry).
Proof.
  exact (connect_to_server_blank_entry (Demo.env Demo.run_ok) Demo2.blank_entry eq_refl).
Defined.

(** Connecting to lagrange from the start. *)
Lemma connect_to_server_stops_witness :
  let r := connect_to_server (Demo.env (Demo.run_lists Demo.listing_lagrange)) (init ∅) in
  server r.2 = "lagrange"
  ∧ r.1 = Raise (AttributeError "unmount_all")
  ∧ check_vars r.2 = Some [("photo", false); ("music", false)].
Proof.
  destruct (connect_to_server_stops (Demo.env (Demo.run_lists Demo.listing_lagrange))
              (init ∅) eq_refl) as (_ & H2 & _ & _).
  split; [exact H2|]. vm_compute. done.
Defined.

(** ** [refresh_shares] *)

Section refresh_extra.
Context (E : Env).

Lemma save_mounted_states_returns s cv :
  check_vars s = Some cv → ∃ ms, save_mounted_states s = (Ret ms, s).
Proof.
  intros Hcv. unfold save_mounted_states. unfold bind at 1. unfold gets.
  generalize (@nil (string * bool)) as acc.
  induction (shares s) as [|kv sh IH]; intros acc; simpl; [by eexists|].
  unfold bind at 1. unfold bind at 1. unfold get_check_vars. rewrite Hcv.
  destruct (Dict.mem kv.1 cv); simpl.
  - unfold bind at 1. simpl. apply IH.
  - apply IH.
Qed.

(** X7: once the check boxes exist, [refresh_shares] replaces the registry
    by what discovery returns, rebuilds the check boxes with none set, and
    stops there with the AttributeError of [create_widgets]: the saved
    states are never written back, and the flags stay as discovery left
    them. *)
Theorem refresh_shares_clears_boxes (s : SMBMounter) (cv : list (string * bool)) :
  check_vars s = Some cv →
  let r := refresh_shares E s in
  r.1 = Raise (AttributeError "unmount_all")
  ∧ shares r.2 = discovered E s
  ∧ check_vars r.2 = Some (unticked (discovered E s))
  ∧ heap r.2 = heap (detect_shares E s).2.
Proof.
  intros Hcv r.
  destruct (detect_shares_returns E s) as (found & s' & Hd).
  assert (Hr : refresh_shares E s
               = (Raise (AttributeError "unmount_all"),
                  set_check_vars (Some (unticked found))
                    (set_main_frame true (set_shares found s')))).
  { unfold refresh_shares. unfold bind at 1.
    destruct (save_mounted_states_returns s cv Hcv) as [ms ->].
    unfold bind at 1. by rewrite Hd. }
  unfold r. rewrite Hr, (discovered_eq _ _ _ _ Hd), Hd. done.
Qed.
End refresh_extra.

(** A and B are set in the check boxes; the server lists A and C. *)
Lemma refresh_shares_clears_boxes_witness :
  let s := set_check_vars (Some [("A", true); ("B", true)]) Demo.registry_ab in
  let r := refresh_shares (Demo.env (Demo.run_lists Demo.listing_ac)) s in
  r.1 = Raise (AttributeError "unmount_all")
  ∧ check_vars r.2 = Some [("A", false); ("C", false)].
Proof.
  destruct (refresh_shares_clears_boxes (Demo.env (Demo.run_lists Demo.listing_ac))
              (set_check_vars (Some [("A", true); ("B", true)]) Demo.registry_ab)
              [("A", true); ("B", true)] eq_refl) as (H1 & _ & H3 & _).
  split; [exact H1|]. rewrite H3. vm_compute. reflexivity.
Defined.

(** ** [mount_share] and [unmount_share] *)

Section mount_extra.
Context (E : Env).



(** X8: whatever happens, [mount_share] changes no path of the file system
    other than the link of the share: every other path is as the mount
    command left it. *)
Theorem mount_share_touches_only_link (share : string) (s : SMBMounter) (p : string) :
  p ≠ PyPath.str (link_path E share) →
  fs (mount_share E share s).2 !! p
  = (os_run E (mount_cmd (server s) share) (fs s)).2 !! p.
Proof.
  intros Hp. rewrite mount_share_run.
  destruct (os_run E _ (fs s)) as [[e|rc out err] f1]; [done|].
  simpl. repeat case_match; simpl; try done.
  all: by rewrite lookup_insert_ne, ?lookup_delete_ne by done.
Qed.

(** X9: every call of [mount_share] returns and shows exactly one message
    box: the success box when it returns True, an error box when it returns
    False. *)
Theorem mount_share_one_box (share : string) (s : SMBMounter) :
  ∃ b d,
    (mount_share E share s).1 = Ret b
    ∧ dialogs (mount_share E share s).2 = dialogs s ++ [d]
    ∧ if b then d = msg_mounted E share else ∃ text, d = showerror "Error" text.
Proof.
  rewrite mount_share_run.
  destruct (os_run E _ (fs s)) as [[e|rc out err] f1].
  { exists false. eexists. split; [done|]. split; [done|]. by eexists. }
  simpl. repeat case_match; simpl.
  all: first [ exists true; eexists; split; [done|]; split; [done|]; done
             | exists false; eexists; split; [done|]; split; [done|]; by eexists ].
Qed.

(** X10: a reported success is never a failed command and never a missing
    link: when [mount_share] returns True the mount command exited with
    status 0 and, if the endpoint existed when the command returned, the
    link path now holds the link to it; if it did not, the file system is as
    the command left it. *)
Theorem mount_share_true (share : string) (s : SMBMounter) :
  let L := PyPath.str (link_path E share) in
  let Ep := PyPath.str (endpoint E (server s) share) in
  let c := os_run E (mount_cmd (server s) share) (fs s) in
  (mount_share E share s).1 = Ret true →
  succeeded c.1 = true
  ∧ if FS.exists_ c.2 Ep then fs (mount_share E share s).2 !! L = Some (Symlink Ep)
    else fs (mount_share E share s).2 = c.2.
Proof.
  intros L Ep c. unfold c. rewrite mount_share_run. fold L Ep.
  destruct (os_run E _ (fs s)) as [[e|rc out err] f1]; [done|].
  simpl. case_bool_decide as Hrc; [subst rc|done].
  destruct (FS.exists_ f1 Ep); [|done].
  repeat case_match; simpl; try done.
  all: intros _; split; [done|]; by rewrite lookup_insert_eq.
Qed.


(** X12: [unmount_share] always returns; it shows no message box when it
    returns True and exactly one error box when it returns False. *)
Theorem unmount_share_boxes (share : string) (s : SMBMounter) :
  ∃ b,
    (unmount_share E share s).1 = Ret b
    ∧ if b then dialogs (unmount_share E share s).2 = dialogs s
      else ∃ text, dialogs (unmount_share E share s).2
                   = dialogs s ++ [showerror "Error" text].
Proof.
  unfold unmount_share, try_except, bind, path_exists, gets, unlink, subprocess_run.
  simpl. destruct (FS.exists_ (fs s) _).
  - destruct (fs s !! _) as [[t| |]|]; simpl.
    + destruct (os_run E _ _) as [[e|rc out err] f']; simpl.
      * exists false. split; [done|]. by eexists.
      * case_bool_decide; simpl;
          [exists true; done | exists false; split; [done|]; by eexists].
    + exists false. split; [done|]. by eexists.
    + destruct (os_run E _ _) as [[e|rc out err] f']; simpl.
      * exists false. split; [done|]. by eexists.
      * case_bool_decide; simpl;
          [exists true; done | exists false; split; [done|]; by eexists].
    + exists false. split; [done|]. by eexists.
  - simpl. destruct (os_run E _ _) as [[e|rc out err] f']; simpl.
    + exists false. split; [done|]. by eexists.
    + case_bool_decide; simpl;
        [exists true; done | exists false; split; [done|]; by eexists].
Qed.

(** X13: with a directory at the link path, [unmount_share] gives up at
    once: it returns False with the IsADirectoryError in an error box and
    leaves the file system untouched; the unmount command is not run. *)
Theorem unmount_share_directory (share : string) (s : SMBMounter) :
  fs s !! PyPath.str (link_path E share) = Some Directory →
  unmount_share E share s
  = (Ret false,
     add_dialog (showerror "Error"
                   ("Error unmounting " +:+ share +:+ ": "
                    +:+ str_exn E (IsADirectoryError (PyPath.str (link_path E share))))) s).
Proof.
  intros Hd. unfold unmount_share, try_except, bind, path_exists, gets, unlink. simpl.
  rewrite (exists_directory _ _ Hd), Hd. done.
Qed.

Lemma unmount_share_fs share s :
  let L := PyPath.str (link_path E share) in
  let cmd := unmount_cmd (server s) share in
  fs s !! L ≠ Some Directory →
  let f0 := if FS.exists_ (fs s) L then delete L (fs s) else fs s in
  fs (unmount_share E share s).2 = (os_run E cmd f0).2
  ∧ (unmount_share E share s).1 = Ret (succeeded (os_run E cmd f0).1).
Proof.
  intros L cmd Hdir f0.
  destruct (unmount_share_eq E share s Hdir) as (s0 & Hfs0 & _ & Heq).
  fold L in Hfs0. fold f0 in Hfs0. rewrite Heq. fold cmd. rewrite Hfs0.
  destruct (os_run E cmd f0) as [[e|rc out err] f']; [done|].
  destruct rc; done.
Qed.

(** X14: a mount that creates the link, followed by an unmount, hands the
    unmount command exactly the file system the mount command left: the
    link is made and taken away again, and the unmount reports what its
    command reports. *)
Theorem mount_then_unmount (share : string) (s : SMBMounter) out err f1 :
  let L := PyPath.str (link_path E share) in
  let Ep := PyPath.str (endpoint E (server s) share) in
  os_run E (mount_cmd (server s) share) (fs s) = (Completed 0 out err, f1) →
  f1 !! L = None →
  f1 !! Ep = Some Directory →
  let r1 := mount_share E share s in
  let r2 := unmount_share E share r1.2 in
  let c := os_run E (unmount_cmd (server s) share) f1 in
  r1.1 = Ret true
  ∧ fs r1.2 !! L = Some (Symlink Ep)
  ∧ fs r2.2 = c.2
  ∧ r2.1 = Ret (succeeded c.1).
Proof.
  intros L Ep Hrun HL HEp r1 r2 c.
  assert (Hne : L ≠ Ep) by (intros Heq; rewrite Heq in HL; congruence).
  assert (Hr1 : r1 = (Ret true,
                      add_dialog (msg_mounted E share)
                        (set_fs (<[L := Symlink Ep]> f1) (set_fs f1 s)))).
  { unfold r1. rewrite mount_share_run, Hrun. simpl. fold L Ep.
    by rewrite (exists_directory _ _ HEp), (exists_vacant _ _ HL), HL. }
  assert (Hlive : FS.exists_ (<[L := Symlink Ep]> f1) L = true).
  { rewrite (exists_link_to_plain _ L Ep).
    - apply exists_directory. by rewrite lookup_insert_ne.
    - apply lookup_insert_eq.
    - intros t. rewrite lookup_insert_ne by done. by rewrite HEp. }
  split; [by rewrite Hr1|]. split; [rewrite Hr1; apply lookup_insert_eq|].
  destruct (unmount_share_fs share r1.2) as (Hfs & Hret).
  { rewrite Hr1. simpl. fold L. rewrite lookup_insert_eq. done. }
  unfold r2. rewrite Hfs, Hret. rewrite Hr1. simpl. fold L.
  rewrite Hlive, (delete_insert_id _ _ _ HL). done.
Qed.
End mount_extra.

(** The endpoint is not the link, so a mount leaves it as the command made
    it. *)
Lemma mount_share_touches_only_link_witness :
  fs (mount_share (Demo.env Demo.run_mounts_photo) "photo" (Demo.with_photo ∅)).2
    !! Demo.ep "lagrange" "photo"
  = Some Directory.
Proof.
  rewrite (mount_share_touches_only_link (Demo.env Demo.run_mounts_photo) "photo"
             (Demo.with_photo ∅) (Demo.ep "lagrange" "photo")).
  - vm_compute. reflexivity.
  - vm_compute. discriminate.
Defined.

(** A first mount of photo. *)
Lemma mount_share_true_witness :
  let r := mount_share (Demo.env Demo.run_mounts_photo) "photo" (Demo.with_photo ∅) in
  fs r.2 !! Demo.link_photo = Some (Symlink (Demo.ep "lagrange" "photo")).
Proof.
  exact (proj2 (mount_share_true (Demo.env Demo.run_mounts_photo) "photo"
                  (Demo.with_photo ∅) eq_refl)).
Defined.


(** A directory where the link of photo would be. *)
Lemma unmount_share_directory_witness :
  (unmount_share (Demo.env Demo.run_ok) "photo" (Demo.with_photo Demo.fs_dir_at_link)).1
  = Ret false.
Proof.
  rewrite (unmount_share_directory (Demo.env Demo.run_ok) "photo"
             (Demo.with_photo Demo.fs_dir_at_link)).
  - reflexivity.
  - vm_compute. reflexivity.
Defined.

(** Mount photo, then unmount it: the file system is empty again. *)
Lemma mount_then_unmount_witness :
  let E0 := Demo.env Demo2.run_mount_unmount in
  let r1 := mount_share E0 "photo" (Demo.with_photo ∅) in
  let r2 := unmount_share E0 "photo" r1.2 in
  r1.1 = Ret true ∧ r2.1 = Ret true ∧ fs r2.2 = ∅.
Proof.
  destruct (mount_then_unmount (Demo.env Demo2.run_mount_unmount) "photo"
              (Demo.with_photo ∅) "" ""
              (<[Demo.ep "lagrange" "photo" := Directory]> ∅))
    as (H1 & _ & H3 & H4).
  - reflexivity.
  - vm_compute. reflexivity.
  - vm_compute. reflexivity.
  - split; [exact H1|]. split.
    + rewrite H4. vm_compute. reflexivity.
    + rewrite H3. vm_compute. reflexivity.
Defined.

(** ** [check_mounted_shares] and the batches *)

Section reconcile_extra.
Context (E : Env).

Lemma probe_fold_lookup_other f sh i : ∀ h,
  i ∉ sh.*2 → fold_left (probe E f) sh h !! i = h !! i.
Proof.
  induction sh as [|kv sh IH]; intros h Hi; simpl; [done|].
  rewrite fmap_cons in Hi. apply not_elem_of_cons in Hi as [Hne Hi].
  rewrite IH by done. unfold probe. by apply list_lookup_insert_ne.
Qed.

Lemma probe_fold_lookup_written f sh i : ∀ h h',
  i ∈ sh.*2 → length h = length h' →
  fold_left (probe E f) sh h !! i = fold_left (probe E f) sh h' !! i.
Proof.
  induction sh as [|kv sh IH]; intros h h' Hi Hlen; simpl.
  - by apply elem_of_nil in Hi.
  - destruct (decide (i ∈ sh.*2)) as [Hin|Hnotin].
    + apply IH; [done|]. unfold probe. by rewrite !length_insert.
    + rewrite fmap_cons in Hi. apply elem_of_cons in Hi as [->|Hi]; [|done].
      rewrite !probe_fold_lookup_other by done. unfold probe.
      destruct (decide (kv.2 < length h)%nat) as [Hlt|Hge].
      * rewrite !list_lookup_insert_eq by lia. done.
      * rewrite !list_insert_ge by lia.
        rewrite !lookup_ge_None_2 by lia. done.
Qed.

Lemma probe_fold_idempotent f sh h :
  fold_left (probe E f) sh (fold_left (probe E f) sh h) = fold_left (probe E f) sh h.
Proof.
  apply list_eq. intros i. destruct (decide (i ∈ sh.*2)) as [Hin|Hnotin].
  - apply probe_fold_lookup_written; [done|]. apply probe_fold_length.
  - by rewrite probe_fold_lookup_other.
Qed.

(** X15: [check_mounted_shares] reads the file system and writes only
    flags, and is idempotent: a second run right after the first ends as
    the first did and changes nothing. *)
Theorem check_mounted_shares_idempotent (s : SMBMounter) :
  let r := check_mounted_shares E s in
  fs r.2 = fs s ∧ dialogs r.2 = dialogs s ∧ shares r.2 = shares s
  ∧ check_mounted_shares E r.2 = r.
Proof.
  intros r. unfold r. rewrite !check_mounted_shares_run. simpl.
  repeat split. by rewrite probe_fold_idempotent.
Qed.

Lemma mount_share_dialogs share s :
  length (dialogs (mount_share E share s).2) = S (length (dialogs s)).
Proof.
  rewrite mount_share_run.
  destruct (os_run E _ (fs s)) as [[e|rc out err] f1]; simpl;
    [rewrite length_app; simpl; lia|].
  repeat case_match; simpl; rewrite length_app; simpl; lia.
Qed.

Lemma mount_loop_dialogs cv : ∀ s,
  length (dialogs (for_each cv (λ kv : string * bool,
                     if kv.2 then (_ <- mount_share E kv.1 ;; ret tt) else ret tt) s).2)
  = (length (dialogs s) + length (List.filter (λ kv : string * bool, kv.2) cv))%nat.
Proof.
  induction cv as [|[n b] cv IH]; intros s; simpl; [lia|].
  unfold bind at 1. destruct b; simpl.
  - unfold bind at 1. pose proof (mount_share_dialogs n s) as Hd.
    destruct (mount_share_returns E n s) as (r & s' & Hr). rewrite Hr in Hd |- *.
    simpl in *. rewrite IH, Hd. lia.
  - apply IH.
Qed.

(** X16: "Mount Selected" shows exactly one message box for every share
    that is set in the check boxes, and none for the others. *)
Theorem mount_selected_boxes (s : SMBMounter) (cv : list (string * bool)) :
  check_vars s = Some cv →
  length (dialogs (mount_selected E s).2)
  = (length (dialogs s) + length (selected cv))%nat.
Proof.
  intros Hcv. unfold mount_selected. unfold bind at 1. unfold get_check_vars.
  rewrite Hcv. unfold bind at 1.
  pose proof (mount_loop_dialogs cv s) as Hl.
  unfold selected. rewrite length_fmap.
  destruct (for_each cv _ s) as [[[]|e] s1]; simpl in *; [|done].
  by rewrite check_mounted_shares_run.
Qed.

Lemma registry_ok_same s s' :
  shares s' = shares s → heap s' = heap s → registry_ok s → registry_ok s'.
Proof. unfold registry_ok. by intros -> ->. Qed.

Lemma batch_reconciled (action : string → M bool) cv s share l :
  (∀ n, returns (action n)) →
  (∀ n, keeps shares (action n)) →
  (∀ n, keeps heap (action n)) →
  registry_ok s →
  Dict.get share (shares s) = Some l →
  let r := (for_each cv (λ kv : string * bool,
              if kv.2 then (_ <- action kv.1 ;; ret tt) else ret tt) ;;
            check_mounted_shares E)%py s in
  r.1 = Ret tt
  ∧ mounted share r.2 = Some (FS.exists_ (fs r.2) (PyPath.str (link_path E share))).
Proof.
  intros Hret Hsh Hheap Hok Hget r.
  pose proof (keeps_selected_loop shares action cv Hsh s) as H1.
  pose proof (keeps_selected_loop heap action cv Hheap s) as H2.
  assert (Hloop : ∃ s1, for_each cv (λ kv : string * bool,
              if kv.2 then (_ <- action kv.1 ;; ret tt) else ret tt) s = (Ret tt, s1)).
  { clear -Hret. revert s. induction cv as [|[n b] cv IH]; intros s; simpl; [by eexists|].
    unfold bind at 1. destruct b; simpl.
    - unfold bind at 1. destruct (Hret n s) as (x & s' & ->). simpl. apply IH.
    - apply IH. }
  destruct Hloop as [s1 Hs1]. rewrite Hs1 in H1, H2. simpl in H1, H2.
  assert (Hr : r = check_mounted_shares E s1).
  { unfold r. unfold bind at 1. by rewrite Hs1. }
  rewrite Hr.
  split; [by rewrite check_mounted_shares_run|].
  rewrite (reconciled_flag E s1 share l).
  - by rewrite check_mounted_shares_run.
  - by rewrite H1.
  - by apply (registry_ok_same s).
Qed.

(** X17: once the check boxes exist, when "Mount Selected" or "Unmount
    Selected" returns, the flag of every share of the registry says whether
    the link path of that share exists. *)
Theorem batches_reconcile (s : SMBMounter) (cv : list (string * bool))
    (share : string) (l : nat) :
  check_vars s = Some cv →
  registry_ok s →
  Dict.get share (shares s) = Some l →
  let L := PyPath.str (link_path E share) in
  let m := mount_selected E s in
  let u := unmount_selected E s in
  (m.1 = Ret tt → mounted share m.2 = Some (FS.exists_ (fs m.2) L))
  ∧ (u.1 = Ret tt → mounted share u.2 = Some (FS.exists_ (fs u.2) L)).
Proof.
  intros Hcv Hok Hget L m u.
  assert (Hm : m = (for_each cv (λ kv : string * bool,
                      if kv.2 then (_ <- mount_share E kv.1 ;; ret tt) else ret tt) ;;
                    check_mounted_shares E)%py s).
  { unfold m, mount_selected. unfold bind at 1. unfold get_check_vars. by rewrite Hcv. }
  assert (Hu : u = (for_each cv (λ kv : string * bool,
                      if kv.2 then (_ <- unmount_share E kv.1 ;; ret tt) else ret tt) ;;
                    check_mounted_shares E)%py s).
  { unfold u, unmount_selected. unfold bind at 1. unfold get_check_vars. by rewrite Hcv. }
  rewrite Hm, Hu. split; intros _.
  - refine (proj2 (batch_reconciled (mount_share E) cv s share l _ _ _ Hok Hget)).
    + apply returns_mount_share.
    + intros n. by apply keeps_mount_share.
    + intros n. by apply keeps_mount_share.
  - refine (proj2 (batch_reconciled (unmount_share E) cv s share l _ _ _ Hok Hget)).
    + apply returns_unmount_share.
    + intros n. by apply keeps_unmount_share.
    + intros n. by apply keeps_unmount_share.
Qed.

(** X18: in every state the user can reach, two different names of the
    registry have different inner dictionaries: writing the flag of one
    share sets that flag and leaves the flag of the other as it was. *)
Theorem registry_flags_separate (fs0 : gmap string node) (ops : list op)
    (n1 n2 : string) (l1 l2 : nat) (b : bool) :
  let s := run E ops (init fs0) in
  Dict.get n1 (shares s) = Some l1 →
  Dict.get n2 (shares s) = Some l2 →
  n1 ≠ n2 →
  l1 ≠ l2
  ∧ mounted n1 (set_mounted l1 b s).2 = Some b
  ∧ mounted n2 (set_mounted l1 b s).2 = mounted n2 s.
Proof.
  intros s H1 H2 Hne.
  destruct (reachable_registry_ok E fs0 ops) as [Hnd Hlen]. fold s in Hnd, Hlen.
  pose proof (dict_get_elem _ _ _ H1) as Hin1.
  pose proof (dict_get_elem _ _ _ H2) as Hin2.
  assert (Hl : l1 ≠ l2).
  { intros <-.
    apply list_elem_of_lookup in Hin1 as [i Hi]. apply list_elem_of_lookup in Hin2 as [j Hj].
    assert (i = j).
    { apply (NoDup_lookup _ i j l1 Hnd); rewrite list_lookup_fmap; [by rewrite Hi|by rewrite Hj]. }
    subst j. rewrite Hi in Hj. by injection Hj. }
  split; [done|]. unfold mounted, set_mounted, modify. simpl. rewrite H1, H2. simpl.
  split.
  - f_equal. apply list_lookup_total_insert_eq. apply (Hlen _ Hin1).
  - f_equal. by apply list_lookup_total_insert_ne.
Qed.
End reconcile_extra.

(** Three shares are set, the second of which cannot be mounted: three
    boxes. *)
Lemma mount_selected_boxes_witness :
  length (dialogs (mount_selected (Demo.env Demo.run_abc) Demo.abc_selected).2) = 3%nat.
Proof.
  exact (mount_selected_boxes (Demo.env Demo.run_abc) Demo.abc_selected
           [("A", true); ("B", true); ("C", true)] eq_refl).
Defined.

(** After the batch, A is flagged mounted because its link exists. *)
Lemma batches_reconcile_witness :
  let E0 := Demo.env Demo.run_abc in
  let m := mount_selected E0 Demo.abc_selected in
  mounted "A" m.2 = Some (FS.exists_ (fs m.2) (PyPath.str (link_path E0 "A"))).
Proof.
  assert (Hok : registry_ok Demo.abc_selected).
  { split.
    - apply (bool_decide_unpack (NoDup (shares Demo.abc_selected).*2)). vm_compute. exact I.
    - intros kv Hkv. unfold Demo.abc_selected in Hkv. simpl in Hkv.
      repeat (apply elem_of_cons in Hkv as [->|Hkv]; [vm_compute; lia|]).
      by apply elem_of_nil in Hkv. }
  apply (proj1 (batches_reconcile (Demo.env Demo.run_abc) Demo.abc_selected
                  [("A", true); ("B", true); ("C", true)] "A" 4
                  eq_refl Hok eq_refl)).
  vm_compute. reflexivity.
Defined.

(** After connecting to lagrange, photo and music have flags of their
    own. *)
Lemma registry_flags_separate_witness :
  let E0 := Demo.env (Demo.run_lists Demo.listing_lagrange) in
  let s := run E0 [Connect] (init ∅) in
  mounted "photo" (set_mounted 4 true s).2 = Some true
  ∧ mounted "music" (set_mounted 4 true s).2 = mounted "music" s.
Proof.
  exact (proj2 (registry_flags_separate (Demo.env (Demo.run_lists Demo.listing_lagrange))
                  ∅ [Connect] "photo" "music" 4 5 true eq_refl eq_refl
                  ltac:(discriminate))).
Defined.

(** ** Link paths *)

Section link_paths.
Context (E : Env).

Lemma string_app_assoc a b c : (a +:+ b) +:+ c = a +:+ (b +:+ c).
Proof.
  induction a as [|x a IH]; [done|].
  rewrite !string_app_cons. by rewrite IH.
Qed.

Lemma root_of_no_slash name : PyStr.contains "/" name = false → PyPath.root_of name = "".
Proof.
  destruct name as [|a name]; [done|]. rewrite contains_char_cons.
  intros [Ha _]%orb_false_iff. apply bool_decide_eq_false in Ha.
  unfold PyPath.root_of. simpl. destruct (decide ("/"%char = a)); done.
Qed.

Lemma parts_of_component name : component name → PyPath.parts_of name = [name].
Proof.
  intros (Hs & Hne & Hdot). unfold PyPath.parts_of.
  rewrite (split_on_none "/" name Hs). simpl. unfold PyPath.keep_part.
  by rewrite !bool_decide_eq_false_2.
Qed.

Lemma join_snoc sep l x :
  PyStr.join sep (l ++ [x])
  = match l with
    | [] => x
    | _ => PyStr.join sep l +:+ sep +:+ x
    end.
Proof.
  induction l as [|y l IH]; [done|].
  destruct l as [|z l]; [done|].
  change (PyStr.join sep ((y :: z :: l) ++ [x]))
    with (y +:+ sep +:+ PyStr.join sep ((z :: l) ++ [x])).
  rewrite IH.
  change (PyStr.join sep (y :: z :: l)) with (y +:+ sep +:+ PyStr.join sep (z :: l)).
  by rewrite !string_app_assoc.
Qed.

Lemma truediv_component (p : PyPath.path) name :
  component name → PyPath.str (PyPath.truediv p name) = stem p +:+ name.
Proof.
  intros Hc. unfold PyPath.truediv, PyPath.Path.
  cbn [PyPath.root PyPath.parts].
  rewrite (root_of_no_slash name) by apply Hc.
  rewrite (parts_of_component name Hc).
  rewrite bool_decide_eq_true_2 by done.
  unfold PyPath.str, stem. cbn [PyPath.root PyPath.parts].
  destruct (PyPath.parts p) as [|y l]; destruct (PyPath.root p) as [|c r].
  - reflexivity.
  - reflexivity.
  - change ("" +:+ PyStr.join "/" ((y :: l) ++ [name])
            = ("" +:+ PyStr.join "/" (y :: l) +:+ "/") +:+ name).
    rewrite join_snoc. by rewrite !string_app_assoc.
  - rewrite join_snoc. by rewrite !string_app_assoc.
Qed.

(** X19: the link path of a share whose name is one path component is the
    links directory followed by that name; two such names that differ never
    get the same link path. *)
Theorem link_path_injective (a b : string) :
  component a → component b →
  PyPath.str (link_path E a) = stem (smb_links E) +:+ a
  ∧ (PyPath.str (link_path E a) = PyPath.str (link_path E b) → a = b).
Proof.
  intros Ha Hb. unfold link_path. rewrite !truediv_component by done.
  split; [done|]. apply String.app_inj.
Qed.
End link_paths.

(** photo and music under /home/ann/SMBLinks. *)
Lemma link_path_injective_witness :
  PyPath.str (link_path (Demo.env Demo.run_ok) "photo") = "/home/ann/SMBLinks/photo"
  ∧ PyPath.str (link_path (Demo.env Demo.run_ok) "photo")
    ≠ PyPath.str (link_path (Demo.env Demo.run_ok) "music").
Proof.
  assert (Hp : component "photo") by (repeat split; discriminate).
  assert (Hm : component "music") by (repeat split; discriminate).
  destruct (link_path_injective (Demo.env Demo.run_ok) "photo" "music" Hp Hm) as [H1 H2].
  split; [exact H1|]. intros Heq. specialize (H2 Heq). discriminate.
Defined.

(** A name with a slash is not one component: pathlib lets an absolute
    name replace the links directory. *)
Example link_path_absolute_name :
  PyPath.str (link_path (Demo.env Demo.run_ok) "/etc") = "/etc".
Proof. reflexivity. Qed.
(** * The batches and the registry across a change of server *)

(** ** [mount_selected] and [unmount_selected], call by call *)

Section sequential.
Context (E : Env).

(** The loop over the check boxes calls the action on every ticked name,
    in order, and goes on whatever a call returned. *)
Lemma selected_loop_after_each (action : string → M bool) :
  (∀ share, returns (action share)) →
  ∀ cv s,
    for_each cv (λ kv : string * bool,
        if kv.2 then (_ <- action kv.1 ;; ret tt) else ret tt) s
    = (Ret tt, after_each action (selected cv) s).
Proof.
  intros Hret. induction cv as [|[n b] cv IH]; intros s; [done|].
  destruct b.
  - change (selected ((n, true) :: cv)) with (n :: selected cv).
    simpl. unfold bind at 1. unfold bind at 1.
    destruct (Hret n s) as (r & s' & Hr). rewrite Hr. simpl. apply IH.
  - change (selected ((n, false) :: cv)) with (selected cv).
    simpl. unfold bind at 1. simpl. apply IH.
Qed.

Lemma after_each_mount_dialogs names : ∀ s,
  length (dialogs (after_each (mount_share E) names s))
  = (length (dialogs s) + length names)%nat.
Proof.
  induction names as [|n names IH]; intros s; [simpl; lia|].
  change (after_each (mount_share E) (n :: names) s)
    with (after_each (mount_share E) names (mount_share E n s).2).
  rewrite IH, mount_share_dialogs. simpl. lia.
Qed.

(** C7: [mount_selected] and [unmount_selected] work through the ticked
    names one after the other and never stop early: each ends as
    [check_mounted_shares] does when run once [mount_share] (or
    [unmount_share]) has been called on every ticked name, in the order of
    the check boxes, each call starting where the call before it stopped,
    whatever that call returned.  Neither hands back the results of the
    calls; a batch of mounts shows one message box per ticked name. *)
Theorem selected_shares_sequential (s : SMBMounter) (cv : list (string * bool)) :
  check_vars s = Some cv →
  mount_selected E s
  = check_mounted_shares E (after_each (mount_share E) (selected cv) s)
  ∧ unmount_selected E s
    = check_mounted_shares E (after_each (unmount_share E) (selected cv) s)
  ∧ length (dialogs (after_each (mount_share E) (selected cv) s))
    = (length (dialogs s) + length (selected cv))%nat.
Proof.
  intros Hcv. split; [|split].
  - unfold mount_selected. unfold bind at 1. unfold get_check_vars. rewrite Hcv.
    unfold bind at 1.
    by rewrite (selected_loop_after_each (mount_share E) (returns_mount_share E)).
  - unfold unmount_selected. unfold bind at 1. unfold get_check_vars. rewrite Hcv.
    unfold bind at 1.
    by rewrite (selected_loop_after_each (unmount_share E) (returns_unmount_share E)).
  - apply after_each_mount_dialogs.
Qed.
End sequential.

(** Three ticked shares, the second of which cannot be mounted: all three
    calls are made, and three boxes are shown. *)
Lemma selected_shares_sequential_witness :
  let E0 := Demo.env Demo.run_abc in
  let s1 := after_each (mount_share E0) ["A"; "B"; "C"] Demo.abc_selected in
  mount_selected E0 Demo.abc_selected = check_mounted_shares E0 s1
  ∧ length (dialogs s1) = 3%nat.
Proof.
  destruct (selected_shares_sequential (Demo.env Demo.run_abc) Demo.abc_selected
              [("A", true); ("B", true); ("C", true)] eq_refl) as (H1 & _ & H3).
  split; [exact H1 | exact H3].
Defined.

(** What the batches return says nothing about the shares: with B failing
    and with B succeeding, with every unmount failing and with every
    unmount succeeding, the batch of the specification has different
    results, while the method returns the same [None]. *)
Lemma selected_shares_results_dropped :
  let E1 := Demo.env Demo.run_abc in
  let E2 := Demo.env Demo.run_ok in
  let s := Demo.abc_selected in
  (Spec.mountMany E1 ["A"; "B"; "C"] s).1 = Ret [("A", true); ("B", false); ("C", true)]
  ∧ (Spec.mountMany E2 ["A"; "B"; "C"] s).1 = Ret [("A", true); ("B", true); ("C", true)]
  ∧ (Spec.unmountMany E1 ["A"; "B"; "C"] s).1
    = Ret [("A", false); ("B", false); ("C", false)]
  ∧ (Spec.unmountMany E2 ["A"; "B"; "C"] s).1 = Ret [("A", true); ("B", true); ("C", true)]
  ∧ (mount_selected E1 s).1 = Ret tt ∧ (mount_selected E2 s).1 = Ret tt
  ∧ (unmount_selected E1 s).1 = Ret tt ∧ (unmount_selected E2 s).1 = Ret tt
  ∧ dialogs (unmount_selected E2 s).2 = []
  ∧ (¬ ∃ read : result unit → list (string * bool),
        read (mount_selected E1 s).1 = [("A", true); ("B", false); ("C", true)]
        ∧ read (mount_selected E2 s).1 = [("A", true); ("B", true); ("C", true)])
  ∧ (¬ ∃ read : result unit → list (string * bool),
        read (unmount_selected E1 s).1 = [("A", false); ("B", false); ("C", false)]
        ∧ read (unmount_selected E2 s).1 = [("A", true); ("B", true); ("C", true)]).
Proof.
  intros E1 E2 s.
  assert (Hm1 : (mount_selected E1 s).1 = Ret tt) by (vm_compute; reflexivity).
  assert (Hm2 : (mount_selected E2 s).1 = Ret tt) by (vm_compute; reflexivity).
  assert (Hu1 : (unmount_selected E1 s).1 = Ret tt) by (vm_compute; reflexivity).
  assert (Hu2 : (unmount_selected E2 s).1 = Ret tt) by (vm_compute; reflexivity).
  repeat (split; [vm_compute; reflexivity|]).
  split.
  - rewrite Hm1, Hm2. intros (read & H1 & H2). rewrite H1 in H2. discriminate.
  - rewrite Hu1, Hu2. intros (read & H1 & H2). rewrite H1 in H2. discriminate.
Qed.

(** ** The registry across a change of server *)

Section server_change.
Context (E : Env).

End server_change.

